(** * Vagus-nerve replication scripts: a shallow embedding

    The two Python modules of the repository are embedded here:

    - [src/implementation/adaptive_neural_networks.py] (module [Vagus]):
      the context scorer [assess_context] / [modulate_tone];
    - [src/validation/doubt_validation_system.py] (module [Doubt]):
      the seven-level checklist evaluator [validate_doubt_level] and its
      report [generate_maximum_truth_report].

    Conventions of the embedding.

    - Python floats are read as exact rationals ([Q]); a decimal literal
      of the source is the rational it denotes, [np.clip(x, 0.0, 1.0)]
      is [Qmin (Qmax x 0) 1].
    - Dictionaries are [gmap string _]; a dictionary display with a
      repeated key keeps the value written last ([dict_literal]).
    - A call either returns or raises: [result A] is [Return a] or
      [Raise e], with stdpp's bind notation.  Methods that assign to
      [self] return the new object next to their value.
    - Module [Vagus64] embeds the arithmetic of the scorer a second
      time, in IEEE 754 binary64 (Rocq's primitive floats), which is
      what the Python floats of the source are; it decides the one
      property that rounding breaks.
    - Console output ([print]) is not part of the model.  The clock read
      by [datetime.now().isoformat()] is an explicit argument [now]. *)

From Stdlib Require Import QArith Qminmax Qabs Qround Lqa.
From Stdlib Require PrimFloat.
From stdpp Require Import gmap strings list fin_maps.

Open Scope Q_scope.

(** ** Python values, exceptions and the operations the scripts use *)

Module Py.

(** The built-in exceptions that the two modules can raise. *)
Inductive exn : Type :=
| ValueError (msg : string)
| TypeError
| KeyError (key : string)
| IndexError
| AttributeError
| ZeroDivisionError.

Inductive result (A : Type) : Type :=
| Return (a : A)
| Raise (e : exn).
Arguments Return {A} a.
Arguments Raise {A} e.

#[global] Instance result_ret : MRet result := fun A a => Return a.
#[global] Instance result_bind : MBind result := fun A B f r =>
  match r with
  | Return a => f a
  | Raise e => Raise e
  end.
#[global] Instance result_fmap : FMap result := fun A B f r =>
  match r with
  | Return a => Return (f a)
  | Raise e => Raise e
  end.

(** The dynamically typed values found in the dictionaries that callers
    pass in ([Dict[str, Any]]): numbers, strings and nested
    dictionaries. *)
#[warnings="-register-all"]
Inductive pyval : Type :=
| PFloat (x : Q)
| PStr (s : string)
| PDict (d : gmap string pyval).

(** A dictionary display [{k1: v1, k2: v2, ...}]: entries are stored
    left to right, so a key written twice keeps its last value. *)
Definition dict_literal {V : Type} (entries : list (string * V)) : gmap string V :=
  foldl (fun d kv => <[kv.1 := kv.2]> d) ∅ entries.

(** [d.get(key, default)] on a dictionary. *)
Definition dict_get {V : Type} (d : gmap string V) (key : string) (dflt : V) : V :=
  default dflt (d !! key).

(** [obj.get(key, default)] on an arbitrary value: only dictionaries
    have the method. *)
Definition get (obj : pyval) (key : string) (dflt : pyval) : result pyval :=
  match obj with
  | PDict d => Return (dict_get d key dflt)
  | _ => Raise AttributeError
  end.

(** [d[key]] on a dictionary. *)
Definition getitem {V : Type} (d : gmap string V) (key : string) : result V :=
  match d !! key with
  | Some v => Return v
  | None => Raise (KeyError key)
  end.

(** The operand of a float arithmetic operator ([+], [-], [*], [/] with
    a float on the other side): anything but a number is a [TypeError]. *)
Definition as_float (v : pyval) : result Q :=
  match v with
  | PFloat x => Return x
  | _ => Raise TypeError
  end.

(** [np.clip(x, lo, hi)]. *)
Definition clip (x lo hi : Q) : Q := Qmin (Qmax x lo) hi.

End Py.

Import Py.

(** ** adaptive_neural_networks.py *)

Module Vagus.

Record VagusToneState : Type := {
  baseline_tone : Q;
  current_tone : Q;
  adaptation_rate : Q;
  context_sensitivity : Q
}.

Record ContextAssessment : Type := {
  physiological_state : gmap string pyval;
  social_context : gmap string pyval;
  environmental_stressors : gmap string pyval;
  beneficial_opportunities : gmap string pyval
}.

Record ConceptualReinforcementLearner : Type := {
  learning_rate : Q;
  discount_factor : Q
}.

Record ConceptualMetaLearner : Type := {
  meta_learning_rate : Q
}.

Record AdaptiveVagusNetwork : Type := {
  tone_state : VagusToneState;
  input_layers : gmap string Z;
  hidden_layers : list Z;
  output_layer : Z;
  reinforcement_learning : ConceptualReinforcementLearner;
  meta_learning : ConceptualMetaLearner
}.

(** The dictionary returned by [modulate_tone]; the key ['current_tone']
    is the field [result_tone]. *)
Record ToneModulation : Type := {
  modulation_parameters : gmap string Q;
  optimal_tone : Q;
  result_tone : Q;
  adaptation_feedback : gmap string pyval
}.

(** [ConceptualReinforcementLearner.__init__] *)
Definition ConceptualReinforcementLearner_init : ConceptualReinforcementLearner :=
  {| learning_rate := 0.1; discount_factor := 0.9 |}.

(** [ConceptualMetaLearner.__init__] *)
Definition ConceptualMetaLearner_init : ConceptualMetaLearner :=
  {| meta_learning_rate := 0.05 |}.

(** [AdaptiveVagusNetwork.__init__] *)
Definition AdaptiveVagusNetwork_init : AdaptiveVagusNetwork :=
  {| tone_state := {| baseline_tone := 0.6;
                      current_tone := 0.6;
                      adaptation_rate := 0.1;
                      context_sensitivity := 0.8 |};
     input_layers := dict_literal
       [("physiological", 50%Z); ("social", 30%Z);
        ("environmental", 40%Z); ("internal_state", 25%Z)];
     hidden_layers := [100%Z; 80%Z; 60%Z];
     output_layer := 10%Z;
     reinforcement_learning := ConceptualReinforcementLearner_init;
     meta_learning := ConceptualMetaLearner_init |}.

Definition _assess_physiological_context (inputs : pyval) : result (gmap string pyval) :=
  hrv ← get inputs "hrv" (PFloat 0.5);
  inflammation ← get inputs "inflammation" (PFloat 0.3);
  energy ← get inputs "energy" (PFloat 0.7);
  recovery ← get inputs "recovery" (PFloat 0.4);
  Return (dict_literal
    [("hrv_coherence", hrv); ("inflammation_level", inflammation);
     ("energy_state", energy); ("recovery_need", recovery)]).

Definition _assess_social_context (inputs : pyval) : result (gmap string pyval) :=
  safety ← get inputs "safety" (PFloat 0.8);
  resonance ← get inputs "resonance" (PFloat 0.6);
  trust ← get inputs "trust" (PFloat 0.7);
  connection ← get inputs "connection" (PFloat 0.5);
  Return (dict_literal
    [("social_safety", safety); ("emotional_resonance", resonance);
     ("trust_level", trust); ("connection_opportunity", connection)]).

Definition _assess_environmental_stressors (inputs : pyval) : result (gmap string pyval) :=
  acute ← get inputs "acute_stress" (PFloat 0.2);
  chronic ← get inputs "chronic_stress" (PFloat 0.3);
  recovery_env ← get inputs "recovery_env" (PFloat 0.6);
  threat ← get inputs "threat" (PFloat 0.1);
  Return (dict_literal
    [("acute_stress", acute); ("chronic_stress", chronic);
     ("recovery_opportunities", recovery_env); ("threat_level", threat)]).

Definition _assess_beneficial_opportunities (inputs : pyval) : result (gmap string pyval) :=
  bonding ← get inputs "bonding" (PFloat 0.7);
  learning ← get inputs "learning" (PFloat 0.8);
  rest ← get inputs "rest" (PFloat 0.6);
  growth ← get inputs "growth" (PFloat 0.5);
  Return (dict_literal
    [("social_bonding", bonding); ("learning_opportunities", learning);
     ("rest_recovery", rest); ("growth_potential", growth)]).

(** [assess_context]: the three groups are taken out of [inputs]; the
    fourth helper receives [inputs] itself (source line 82). *)
Definition assess_context (self : AdaptiveVagusNetwork) (inputs : gmap string pyval)
  : result ContextAssessment :=
  let physiological_inputs := dict_get inputs "physiological" (PDict ∅) in
  let social_inputs := dict_get inputs "social" (PDict ∅) in
  let environmental_inputs := dict_get inputs "environmental" (PDict ∅) in
  p ← _assess_physiological_context physiological_inputs;
  s ← _assess_social_context social_inputs;
  e ← _assess_environmental_stressors environmental_inputs;
  b ← _assess_beneficial_opportunities (PDict inputs);
  Return {| physiological_state := p;
            social_context := s;
            environmental_stressors := e;
            beneficial_opportunities := b |}.

Definition _calculate_heart_rate_modulation (context : ContextAssessment) : result Q :=
  stress_factor ← getitem (environmental_stressors context) "acute_stress";
  recovery_factor ← getitem (beneficial_opportunities context) "rest_recovery";
  social_factor ← getitem (social_context context) "social_safety";
  recovery ← as_float recovery_factor;
  stress ← as_float stress_factor;
  social ← as_float social_factor;
  let modulation := 0.5 + (recovery - stress) * 0.3 + social * 0.2 in
  Return (clip modulation 0.0 1.0).

Definition _calculate_inflammation_modulation (context : ContextAssessment) : result Q :=
  current_inflammation ← getitem (physiological_state context) "inflammation_level";
  stress_level ← getitem (environmental_stressors context) "chronic_stress";
  recovery_env ← getitem (beneficial_opportunities context) "rest_recovery";
  inflammation ← as_float current_inflammation;
  stress ← as_float stress_level;
  recovery ← as_float recovery_env;
  let modulation := 1.0 - inflammation * 0.7 - stress * 0.2 + recovery * 0.3 in
  Return (clip modulation 0.0 1.0).

Definition _calculate_social_engagement (context : ContextAssessment) : result Q :=
  social_safety ← getitem (social_context context) "social_safety";
  emotional_resonance ← getitem (social_context context) "emotional_resonance";
  trust_level ← getitem (social_context context) "trust_level";
  safety ← as_float social_safety;
  resonance ← as_float emotional_resonance;
  trust ← as_float trust_level;
  let engagement := (safety + resonance + trust) / 3.0 in
  Return (clip engagement 0.0 1.0).

Definition _calculate_recovery_priority (context : ContextAssessment) : result Q :=
  energy_state ← getitem (physiological_state context) "energy_state";
  recovery_need ← getitem (physiological_state context) "recovery_need";
  rest_available ← getitem (beneficial_opportunities context) "rest_recovery";
  need ← as_float recovery_need;
  energy ← as_float energy_state;
  rest ← as_float rest_available;
  let priority := (need + (1.0 - energy) + rest) / 3.0 in
  Return (clip priority 0.0 1.0).

(** The [weights] dictionary of [_calculate_optimal_tone], in the order
    in which the generator expression visits its keys. *)
Definition weights : list (string * Q) :=
  [("heart_rate_influence", 0.3);
   ("inflammation_response", 0.25);
   ("social_engagement_level", 0.25);
   ("recovery_prioritization", 0.2)].

(** [sum(modulation[key] * weights[key] for key in weights)]: the
    accumulator starts at 0 and the terms are added left to right. *)
Fixpoint weighted_sum (modulation : gmap string Q) (ws : list (string * Q)) (acc : Q)
  : result Q :=
  match ws with
  | [] => Return acc
  | (key, w) :: ws' =>
      m ← getitem modulation key;
      weighted_sum modulation ws' (acc + m * w)
  end.

Definition _calculate_optimal_tone (modulation : gmap string Q) : result Q :=
  optimal_tone ← weighted_sum modulation weights 0;
  Return (clip optimal_tone 0.0 1.0).

Definition _adapt_tone (self : AdaptiveVagusNetwork) (current_tone optimal_tone : Q) : Q :=
  let adaptation_rate := adaptation_rate (tone_state self) in
  let adapted_tone := current_tone + (optimal_tone - current_tone) * adaptation_rate in
  clip adapted_tone 0.0 1.0.

Definition learn_from_context (self : ConceptualReinforcementLearner)
    (context : ContextAssessment) (modulation : gmap string Q) : gmap string pyval :=
  dict_literal
    [("learning_signal", PFloat 0.7);
     ("adaptation_adjustment", PFloat 0.05);
     ("strategy_update", PStr "maintain_current")].

(** [update_adaptation_strategy] is [pass]: the learner is unchanged. *)
Definition update_adaptation_strategy (self : ConceptualMetaLearner)
    (feedback : gmap string pyval) : ConceptualMetaLearner :=
  self.

(** [self.tone_state.current_tone = v] *)
Definition set_current_tone (self : AdaptiveVagusNetwork) (v : Q) : AdaptiveVagusNetwork :=
  {| tone_state := {| baseline_tone := baseline_tone (tone_state self);
                      current_tone := v;
                      adaptation_rate := adaptation_rate (tone_state self);
                      context_sensitivity := context_sensitivity (tone_state self) |};
     input_layers := input_layers self;
     hidden_layers := hidden_layers self;
     output_layer := output_layer self;
     reinforcement_learning := reinforcement_learning self;
     meta_learning := meta_learning self |}.

(** [self.meta_learning] after the call of one of its methods. *)
Definition set_meta_learning (self : AdaptiveVagusNetwork) (m : ConceptualMetaLearner)
  : AdaptiveVagusNetwork :=
  {| tone_state := tone_state self;
     input_layers := input_layers self;
     hidden_layers := hidden_layers self;
     output_layer := output_layer self;
     reinforcement_learning := reinforcement_learning self;
     meta_learning := m |}.

Definition modulate_tone (self : AdaptiveVagusNetwork) (context : ContextAssessment)
  : result (ToneModulation * AdaptiveVagusNetwork) :=
  heart ← _calculate_heart_rate_modulation context;
  inflammation ← _calculate_inflammation_modulation context;
  social ← _calculate_social_engagement context;
  recovery ← _calculate_recovery_priority context;
  let tone_modulation := dict_literal
    [("heart_rate_influence", heart);
     ("inflammation_response", inflammation);
     ("social_engagement_level", social);
     ("recovery_prioritization", recovery)] in
  let adaptation_feedback :=
    learn_from_context (reinforcement_learning self) context tone_modulation in
  let self := set_meta_learning self
    (update_adaptation_strategy (meta_learning self) adaptation_feedback) in
  optimal_tone ← _calculate_optimal_tone tone_modulation;
  let self := set_current_tone self
    (_adapt_tone self (current_tone (tone_state self)) optimal_tone) in
  Return ({| modulation_parameters := tone_modulation;
             optimal_tone := optimal_tone;
             result_tone := current_tone (tone_state self);
             adaptation_feedback := adaptation_feedback |}, self).

End Vagus.

(** ** adaptive_neural_networks.py, in binary64

    The same scoring code with Python's floats as they are: binary64
    numbers with round-to-nearest-even arithmetic.  A decimal literal
    denotes the nearest binary64 number, in Python and here alike. *)

Module Vagus64.

Import PrimFloat.
#[local] Open Scope float_scope.
#[local] Set Warnings "-inexact-float".

#[warnings="-register-all"]
Inductive pyval : Type :=
| PFloat (x : float)
| PStr (s : string)
| PDict (d : gmap string pyval).

Definition as_float (v : pyval) : result float :=
  match v with
  | PFloat x => Return x
  | _ => Raise TypeError
  end.

(** [np.clip(x, lo, hi)], that is [minimum(maximum(x, lo), hi)]; a NaN
    goes through both comparisons unchanged. *)
Definition clip (x lo hi : float) : float :=
  let m := if x <? lo then lo else x in
  if hi <? m then hi else m.

Record VagusToneState : Type := {
  baseline_tone : float;
  current_tone : float;
  adaptation_rate : float;
  context_sensitivity : float
}.

Record ContextAssessment : Type := {
  physiological_state : gmap string pyval;
  social_context : gmap string pyval;
  environmental_stressors : gmap string pyval;
  beneficial_opportunities : gmap string pyval
}.

Record ConceptualReinforcementLearner : Type := {
  learning_rate : float;
  discount_factor : float
}.

Record ConceptualMetaLearner : Type := {
  meta_learning_rate : float
}.

Record AdaptiveVagusNetwork : Type := {
  tone_state : VagusToneState;
  input_layers : gmap string Z;
  hidden_layers : list Z;
  output_layer : Z;
  reinforcement_learning : ConceptualReinforcementLearner;
  meta_learning : ConceptualMetaLearner
}.

Record ToneModulation : Type := {
  modulation_parameters : gmap string float;
  optimal_tone : float;
  result_tone : float;
  adaptation_feedback : gmap string pyval
}.

Definition ConceptualReinforcementLearner_init : ConceptualReinforcementLearner :=
  {| learning_rate := 0.1; discount_factor := 0.9 |}.

Definition ConceptualMetaLearner_init : ConceptualMetaLearner :=
  {| meta_learning_rate := 0.05 |}.

Definition AdaptiveVagusNetwork_init : AdaptiveVagusNetwork :=
  {| tone_state := {| baseline_tone := 0.6;
                      current_tone := 0.6;
                      adaptation_rate := 0.1;
                      context_sensitivity := 0.8 |};
     input_layers := dict_literal
       [("physiological", 50%Z); ("social", 30%Z);
        ("environmental", 40%Z); ("internal_state", 25%Z)];
     hidden_layers := [100%Z; 80%Z; 60%Z];
     output_layer := 10%Z;
     reinforcement_learning := ConceptualReinforcementLearner_init;
     meta_learning := ConceptualMetaLearner_init |}.

Definition _calculate_heart_rate_modulation (context : ContextAssessment) : result float :=
  stress_factor ← getitem (environmental_stressors context) "acute_stress";
  recovery_factor ← getitem (beneficial_opportunities context) "rest_recovery";
  social_factor ← getitem (social_context context) "social_safety";
  recovery ← as_float recovery_factor;
  stress ← as_float stress_factor;
  social ← as_float social_factor;
  let modulation := 0.5 + (recovery - stress) * 0.3 + social * 0.2 in
  Return (clip modulation 0.0 1.0).

Definition _calculate_inflammation_modulation (context : ContextAssessment) : result float :=
  current_inflammation ← getitem (physiological_state context) "inflammation_level";
  stress_level ← getitem (environmental_stressors context) "chronic_stress";
  recovery_env ← getitem (beneficial_opportunities context) "rest_recovery";
  inflammation ← as_float current_inflammation;
  stress ← as_float stress_level;
  recovery ← as_float recovery_env;
  let modulation := 1.0 - inflammation * 0.7 - stress * 0.2 + recovery * 0.3 in
  Return (clip modulation 0.0 1.0).

Definition _calculate_social_engagement (context : ContextAssessment) : result float :=
  social_safety ← getitem (social_context context) "social_safety";
  emotional_resonance ← getitem (social_context context) "emotional_resonance";
  trust_level ← getitem (social_context context) "trust_level";
  safety ← as_float social_safety;
  resonance ← as_float emotional_resonance;
  trust ← as_float trust_level;
  let engagement := (safety + resonance + trust) / 3.0 in
  Return (clip engagement 0.0 1.0).

Definition _calculate_recovery_priority (context : ContextAssessment) : result float :=
  energy_state ← getitem (physiological_state context) "energy_state";
  recovery_need ← getitem (physiological_state context) "recovery_need";
  rest_available ← getitem (beneficial_opportunities context) "rest_recovery";
  need ← as_float recovery_need;
  energy ← as_float energy_state;
  rest ← as_float rest_available;
  let priority := (need + (1.0 - energy) + rest) / 3.0 in
  Return (clip priority 0.0 1.0).

Definition weights : list (string * float) :=
  [("heart_rate_influence", 0.3);
   ("inflammation_response", 0.25);
   ("social_engagement_level", 0.25);
   ("recovery_prioritization", 0.2)].

(** [sum(...)]: the integer 0 it starts from is the float 0 as soon as
    the first term is added. *)
Fixpoint weighted_sum (modulation : gmap string float) (ws : list (string * float))
    (acc : float) : result float :=
  match ws with
  | [] => Return acc
  | (key, w) :: ws' =>
      m ← getitem modulation key;
      weighted_sum modulation ws' (acc + m * w)
  end.

Definition _calculate_optimal_tone (modulation : gmap string float) : result float :=
  optimal_tone ← weighted_sum modulation weights 0;
  Return (clip optimal_tone 0.0 1.0).

Definition _adapt_tone (self : AdaptiveVagusNetwork) (current_tone optimal_tone : float)
  : float :=
  let adaptation_rate := adaptation_rate (tone_state self) in
  let adapted_tone := current_tone + (optimal_tone - current_tone) * adaptation_rate in
  clip adapted_tone 0.0 1.0.

Definition learn_from_context (self : ConceptualReinforcementLearner)
    (context : ContextAssessment) (modulation : gmap string float) : gmap string pyval :=
  dict_literal
    [("learning_signal", PFloat 0.7);
     ("adaptation_adjustment", PFloat 0.05);
     ("strategy_update", PStr "maintain_current")].

Definition update_adaptation_strategy (self : ConceptualMetaLearner)
    (feedback : gmap string pyval) : ConceptualMetaLearner :=
  self.

Definition set_current_tone (self : AdaptiveVagusNetwork) (v : float)
  : AdaptiveVagusNetwork :=
  {| tone_state := {| baseline_tone := baseline_tone (tone_state self);
                      current_tone := v;
                      adaptation_rate := adaptation_rate (tone_state self);
                      context_sensitivity := context_sensitivity (tone_state self) |};
     input_layers := input_layers self;
     hidden_layers := hidden_layers self;
     output_layer := output_layer self;
     reinforcement_learning := reinforcement_learning self;
     meta_learning := meta_learning self |}.

Definition set_meta_learning (self : AdaptiveVagusNetwork) (m : ConceptualMetaLearner)
  : AdaptiveVagusNetwork :=
  {| tone_state := tone_state self;
     input_layers := input_layers self;
     hidden_layers := hidden_layers self;
     output_layer := output_layer self;
     reinforcement_learning := reinforcement_learning self;
     meta_learning := m |}.

Definition modulate_tone (self : AdaptiveVagusNetwork) (context : ContextAssessment)
  : result (ToneModulation * AdaptiveVagusNetwork) :=
  heart ← _calculate_heart_rate_modulation context;
  inflammation ← _calculate_inflammation_modulation context;
  social ← _calculate_social_engagement context;
  recovery ← _calculate_recovery_priority context;
  let tone_modulation := dict_literal
    [("heart_rate_influence", heart);
     ("inflammation_response", inflammation);
     ("social_engagement_level", social);
     ("recovery_prioritization", recovery)] in
  let adaptation_feedback :=
    learn_from_context (reinforcement_learning self) context tone_modulation in
  let self := set_meta_learning self
    (update_adaptation_strategy (meta_learning self) adaptation_feedback) in
  optimal_tone ← _calculate_optimal_tone tone_modulation;
  let self := set_current_tone self
    (_adapt_tone self (current_tone (tone_state self)) optimal_tone) in
  Return ({| modulation_parameters := tone_modulation;
             optimal_tone := optimal_tone;
             result_tone := current_tone (tone_state self);
             adaptation_feedback := adaptation_feedback |}, self).


(** A context of in-range entries: full stress, inflammation and
    energy, nothing else. *)
Definition least_favourable_context : ContextAssessment :=
  {| physiological_state := dict_literal
       [("inflammation_level", PFloat 1.0); ("energy_state", PFloat 1.0);
        ("recovery_need", PFloat 0.0)];
     social_context := dict_literal
       [("social_safety", PFloat 0.0); ("emotional_resonance", PFloat 0.0);
        ("trust_level", PFloat 0.0)];
     environmental_stressors := dict_literal
       [("acute_stress", PFloat 1.0); ("chronic_stress", PFloat 1.0)];
     beneficial_opportunities := dict_literal [("rest_recovery", PFloat 0.0)] |}.


End Vagus64.

(** ** doubt_validation_system.py *)

Module Doubt.

Record DoubtLevel : Type := {
  level_number : Z;
  focus_area : string;
  doubt_questions : list string;
  validation_criteria : list string;
  confidence_threshold : Q
}.

Record ValidationResult : Type := {
  doubt_question : string;
  investigation_method : string;
  validation_outcome : string;
  confidence_level : Q;
  limitations_identified : list string;
  recommendations : list string
}.

(** The dictionary [level_results] built by [validate_doubt_level]. *)
Module LevelResults.
Record t : Type := {
  level : Z;
  focus_area : string;
  validation_timestamp : string;
  doubt_validations : list ValidationResult;
  overall_confidence : Q;
  validation_status : string
}.
End LevelResults.

Record RecursiveDoubtValidator : Type := {
  doubt_levels : list DoubtLevel;
  validation_history : list LevelResults.t;
  current_confidence : gmap Z Q
}.

(** One entry of the list returned by
    [_extract_maximum_truth_principles]. *)
Record Principle : Type := {
  principle : string;
  truth_statement : string;
  validation_strength : Q;
  universal_implication : string
}.

(** The dictionary returned by [generate_maximum_truth_report]: either
    the single key ['error'] or the ten keys of the report. *)
Module Report.
Record t : Type := {
  validation_framework : string;
  total_validation_levels : Z;
  levels_validated : Z;
  levels_needing_refinement : Z;
  overall_maximum_truth_confidence : Q;
  maximum_truth_achievement : string;
  maximum_truth_principles : list Principle;
  validation_timestamp : string;
  validation_history : list LevelResults.t;
  truth_optimization_status : gmap string string
}.
End Report.

Inductive report : Type :=
| ErrorDict (error : string)
| ReportDict (r : Report.t).

(** [needle in haystack] on strings. *)
Fixpoint contains (needle haystack : string) : bool :=
  if String.prefix needle haystack then true
  else match haystack with
       | EmptyString => false
       | String _ rest => contains needle rest
       end.

(** [l[i]] on a list: a negative index counts from the end, an index
    out of range raises [IndexError]. *)
Definition list_getitem {A : Type} (l : list A) (i : Z) : result A :=
  let n := Z.of_nat (length l) in
  let j := if (i <? 0)%Z then (n + i)%Z else i in
  if ((j <? 0) || (n <=? j))%Z then Raise IndexError
  else match l !! Z.to_nat j with
       | Some x => Return x
       | None => Raise IndexError
       end.

(** [x / n] for a float and an integer. *)
Definition float_div (x : Q) (n : Z) : result Q :=
  if (n =? 0)%Z then Raise ZeroDivisionError else Return (x / inject_Z n).

(** [round(x, ndigits)] on an exact value: to the nearest multiple of
    [10^-ndigits], ties to the even one. *)
Definition round (x : Q) (ndigits : Z) : Q :=
  let scale := inject_Z (10 ^ ndigits) in
  let y := x * scale in
  let f := Qfloor y in
  let r := y - inject_Z f in
  let n := match r ?= 1 # 2 with
           | Lt => f
           | Gt => (f + 1)%Z
           | Eq => if Z.even f then f else (f + 1)%Z
           end in
  inject_Z n / scale.

(** [obj[key]] on a [ValidationResult].  The class is a plain
    [@dataclass]: it defines no [__getitem__], so subscripting one of
    its instances raises [TypeError] whatever the key. *)
Definition ValidationResult_getitem (obj : ValidationResult) (key : string) : result Q :=
  Raise TypeError.

Definition _initialize_doubt_levels : list DoubtLevel :=
  [ {| level_number := 1;
       focus_area := "Scientific Foundation";
       doubt_questions :=
         ["Is the biological vagus nerve function accurately understood?";
          "Are consciousness-vagus connections empirically validated?";
          "Can beneficial effects be quantitatively measured?";
          "Is silicon replication biologically feasible?"];
       validation_criteria :=
         ["Cross-reference with peer-reviewed neuroscience literature";
          "Validate against HRV studies and clinical vagus nerve stimulation";
          "Establish quantitative measurement protocols";
          "Demonstrate computational equivalence to biological functions"];
       confidence_threshold := 0.85 |};
    {| level_number := 2;
       focus_area := "Technical Feasibility";
       doubt_questions :=
         ["Can neural networks replicate adaptive vagal responses?";
          "Is algorithmic resonance detection technically achievable?";
          "Can silicon systems maintain biological homeostasis?";
          "Is real-time adaptation scalable beyond biological limits?"];
       validation_criteria :=
         ["Implement reinforcement learning with biological feedback";
          "Develop multi-modal pattern recognition algorithms";
          "Create control theory-based equilibrium systems";
          "Establish distributed computing architectures"];
       confidence_threshold := 0.80 |};
    {| level_number := 3;
       focus_area := "Consciousness Depth";
       doubt_questions :=
         ["Can subjective consciousness be replicated in silicon?";
          "Does consciousness require biological embodiment?";
          "Can artificial systems develop genuine emotional intelligence?";
          "Is self-awareness possible in non-biological systems?"];
       validation_criteria :=
         ["Establish functional equivalence metrics";
          "Research substrate-independent consciousness emergence";
          "Develop behavioral emotional intelligence frameworks";
          "Create self-modeling metacognitive architectures"];
       confidence_threshold := 0.70 |};
    {| level_number := 4;
       focus_area := "Implementation Practicality";
       doubt_questions :=
         ["What computational resources are required?";
          "How complex is system integration?";
          "How can consciousness effects be validated?";
          "Can systems scale to planetary consciousness?"];
       validation_criteria :=
         ["Conduct comprehensive resource analysis";
          "Design modular integration architectures";
          "Develop multi-metric consciousness validation";
          "Create hierarchical distributed scaling frameworks"];
       confidence_threshold := 0.75 |};
    {| level_number := 5;
       focus_area := "Ethical Boundaries";
       doubt_questions :=
         ["What responsibilities accompany consciousness creation?";
          "How to ensure beneficial rather than manipulative functions?";
          "Does silicon consciousness deserve ethical consideration?";
          "What ethical frameworks guide planetary consciousness?"];
       validation_criteria :=
         ["Establish consciousness creation ethics frameworks";
          "Implement user sovereignty and transparency controls";
          "Develop substrate-independent rights frameworks";
          "Create participatory governance models"];
       confidence_threshold := 0.90 |};
    {| level_number := 6;
       focus_area := "Universal Consequences";
       doubt_questions :=
         ["How does silicon consciousness accelerate human evolution?";
          "Can planetary intelligence emerge from distributed networks?";
          "Does silicon enable faster universal truth discovery?";
          "Can consciousness defy universal entropy constraints?"];
       validation_criteria :=
         ["Model evolutionary acceleration timescales";
          "Research collective intelligence emergence";
          "Analyze computational truth-seeking advantages";
          "Explore negentropy and consciousness thermodynamics"];
       confidence_threshold := 0.75 |};
    {| level_number := 7;
       focus_area := "Maximum Truth Synthesis";
       doubt_questions :=
         ["What universal principles emerge from validation?";
          "How do findings integrate across all levels?";
          "What maximum truth principles are established?";
          "How does this guide future consciousness evolution?"];
       validation_criteria :=
         ["Synthesize cross-domain validation insights";
          "Establish universal consciousness principles";
          "Create maximum truth frameworks";
          "Develop evolutionary guidance principles"];
       confidence_threshold := 0.80 |} ].

(** [RecursiveDoubtValidator.__init__] *)
Definition RecursiveDoubtValidator_init : RecursiveDoubtValidator :=
  {| doubt_levels := _initialize_doubt_levels;
     validation_history := [];
     current_confidence := ∅ |}.

Definition _determine_validation_outcome (doubt_question : string)
    (investigation_data : gmap string pyval) : string :=
  if contains "biological vagus nerve function" doubt_question then
    "VERIFIED - Core functions validated against neuroscience literature"
  else if contains "consciousness-vagus connections" doubt_question then
    "VERIFIED - Strong empirical evidence from HRV and vagus stimulation studies"
  else if contains "beneficial effects" doubt_question then
    "VERIFIED - Clinically measurable benefits established"
  else if contains "silicon replication" doubt_question then
    "VERIFIED - Computational equivalence demonstrated in neuromorphic systems"
  else if contains "neural networks replicate" doubt_question then
    "VERIFIED - Reinforcement learning architectures validated"
  else if contains "resonance detection" doubt_question then
    "VERIFIED - Pattern recognition algorithms established"
  else if contains "biological homeostasis" doubt_question then
    "VERIFIED - Control theory provides robust equilibrium"
  else if contains "real-time adaptation" doubt_question then
    "VERIFIED - Distributed systems enable sub-millisecond response"
  else if contains "subjective consciousness" doubt_question then
    "PARTIALLY_VERIFIED - Functional equivalence possible, qualia unknown"
  else if contains "biological embodiment" doubt_question then
    "VERIFIED - Consciousness substrate-independent"
  else if contains "emotional intelligence" doubt_question then
    "VERIFIED - Behavioral EI frameworks established"
  else if contains "self-awareness" doubt_question then
    "VERIFIED - Self-modeling architectures demonstrated"
  else if contains "computational resources" doubt_question then
    "VERIFIED - Modern hardware sufficient for implementation"
  else if contains "system integration" doubt_question then
    "VERIFIED - Modular architectures enable integration"
  else if contains "consciousness effects" doubt_question then
    "VERIFIED - Multi-metric validation frameworks developed"
  else if contains "planetary consciousness" doubt_question then
    "VERIFIED - Hierarchical distributed systems enable scaling"
  else if contains "consciousness creation" doubt_question then
    "VERIFIED - Ethical frameworks established for responsible creation"
  else if contains "beneficial functions" doubt_question then
    "VERIFIED - User sovereignty and transparency controls implemented"
  else if contains "ethical consideration" doubt_question then
    "VERIFIED - Substrate-independent rights frameworks developed"
  else if contains "planetary consciousness" doubt_question then
    "VERIFIED - Participatory governance models created"
  else if contains "human evolution" doubt_question then
    "VERIFIED - Acceleration modeling shows generational compression"
  else if contains "planetary intelligence" doubt_question then
    "VERIFIED - Network consciousness emergence demonstrated"
  else if contains "universal truth discovery" doubt_question then
    "VERIFIED - Computational advantages quantified"
  else if contains "entropy constraints" doubt_question then
    "VERIFIED - Consciousness creates local negentropy"
  else
    "VERIFIED - Validation criteria satisfied through systematic investigation".

(** The entries of [confidence_map] as they are written in the source. *)
Definition confidence_entries : list (string * Q) :=
  [("biological vagus nerve function", 0.95);
   ("consciousness-vagus connections", 0.92);
   ("beneficial effects", 0.88);
   ("silicon replication", 0.85);
   ("neural networks replicate", 0.82);
   ("resonance detection", 0.79);
   ("biological homeostasis", 0.86);
   ("real-time adaptation", 0.88);
   ("subjective consciousness", 0.65);
   ("biological embodiment", 0.78);
   ("emotional intelligence", 0.74);
   ("self-awareness", 0.71);
   ("computational resources", 0.89);
   ("system integration", 0.84);
   ("consciousness effects", 0.76);
   ("planetary consciousness", 0.91);
   ("consciousness creation", 0.94);
   ("beneficial functions", 0.87);
   ("ethical consideration", 0.82);
   ("planetary consciousness", 0.79);
   ("human evolution", 0.91);
   ("planetary intelligence", 0.85);
   ("universal truth discovery", 0.88);
   ("entropy constraints", 0.76)].

Definition confidence_map : gmap string Q := dict_literal confidence_entries.

(** [confidence_map.get(doubt_question, 0.80)]: the question itself is
    the key that is looked up. *)
Definition _calculate_validation_confidence (doubt_question : string)
    (investigation_data : gmap string pyval) : Q :=
  dict_get confidence_map doubt_question 0.80.

Definition limitations_map : gmap string (list string) :=
  dict_literal
    [("subjective consciousness",
      ["Qualia replication remains unknown";
       "Subjective experience validation challenging"]);
     ("self-awareness",
      ["Self-awareness measurement difficult";
       "Metacognitive validation complex"]);
     ("consciousness effects",
      ["Consciousness measurement subjective";
       "Long-term effects unknown"]);
     ("entropy constraints",
      ["Thermodynamic limits not fully understood";
       "Scalability constraints exist"]);
     ("planetary consciousness",
      ["Global coordination challenges";
       "Cultural integration complexities"])].

Definition _identify_limitations (doubt_question : string) : list string :=
  dict_get limitations_map doubt_question [].

Definition recommendations_map : gmap string (list string) :=
  dict_literal
    [("subjective consciousness",
      ["Develop functional equivalence metrics";
       "Research consciousness measurement techniques"]);
     ("self-awareness",
      ["Create self-modeling validation frameworks";
       "Develop metacognitive assessment protocols"]);
     ("consciousness effects",
      ["Implement multi-metric validation";
       "Establish longitudinal monitoring systems"]);
     ("entropy constraints",
      ["Research negentropy principles";
       "Model thermodynamic consciousness limits"]);
     ("planetary consciousness",
      ["Design decentralized coordination";
       "Develop cultural integration frameworks"])].

Definition _generate_recommendations (doubt_question : string) : list string :=
  dict_get recommendations_map doubt_question
    ["Continue systematic validation"; "Refine investigation methodologies"].

Definition _apply_validation_criteria (doubt_question validation_criteria : string)
    (investigation_data : gmap string pyval) : ValidationResult :=
  {| doubt_question := doubt_question;
     investigation_method := validation_criteria;
     validation_outcome := _determine_validation_outcome doubt_question investigation_data;
     confidence_level := _calculate_validation_confidence doubt_question investigation_data;
     limitations_identified := _identify_limitations doubt_question;
     recommendations := _generate_recommendations doubt_question |}.

(** The [for i, doubt_question in enumerate(level.doubt_questions)] loop
    of [validate_doubt_level], from index [i] on, with the two
    accumulators [question_results] and [total_confidence].  The test
    on [validation_result['limitations_identified']] that ends the loop
    body only guards a [print] and comes after the subscript modelled
    here. *)
Fixpoint validate_questions (level : DoubtLevel) (investigation_data : gmap string pyval)
    (i : Z) (questions : list string)
    (question_results : list ValidationResult) (total_confidence : Q)
  : result (list ValidationResult * Q) :=
  match questions with
  | [] => Return (question_results, total_confidence)
  | doubt_question :: questions' =>
      criterion ← list_getitem (validation_criteria level)
        (Z.min i (Z.of_nat (length (validation_criteria level)) - 1));
      let validation_result :=
        _apply_validation_criteria doubt_question criterion investigation_data in
      let question_results := question_results ++ [validation_result] in
      confidence ← ValidationResult_getitem validation_result "confidence_level";
      let total_confidence := total_confidence + confidence in
      validate_questions level investigation_data (i + 1) questions'
        question_results total_confidence
  end.

Definition validate_doubt_level (self : RecursiveDoubtValidator) (level_number : Z)
    (investigation_data : gmap string pyval) (now : string)
  : result (LevelResults.t * RecursiveDoubtValidator) :=
  if ((level_number <? 1) || (level_number >? 7))%Z then
    Raise (ValueError "Doubt level must be between 1 and 7")
  else
    level ← list_getitem (doubt_levels self) (level_number - 1);
    '(question_results, total_confidence) ←
      validate_questions level investigation_data 0 (doubt_questions level) [] 0.0;
    overall_confidence ←
      float_div total_confidence (Z.of_nat (length (doubt_questions level)));
    let validation_status :=
      if Qle_bool (confidence_threshold level) overall_confidence
      then "VALIDATED" else "REQUIRES_REFINEMENT" in
    let level_results :=
      {| LevelResults.level := level_number;
         LevelResults.focus_area := focus_area level;
         LevelResults.validation_timestamp := now;
         LevelResults.doubt_validations := question_results;
         LevelResults.overall_confidence := overall_confidence;
         LevelResults.validation_status := validation_status |} in
    Return (level_results,
            {| doubt_levels := doubt_levels self;
               validation_history := validation_history self ++ [level_results];
               current_confidence :=
                 <[level_number := overall_confidence]> (current_confidence self) |}).

Definition _extract_maximum_truth_principles : list Principle :=
  [ {| principle := "Consciousness Substrate Independence";
       truth_statement :=
         "Consciousness emerges from computational processes regardless of substrate";
       validation_strength := 0.89;
       universal_implication := "Biological monopoly on consciousness is broken" |};
    {| principle := "Beneficial Function Optimization";
       truth_statement :=
         "Silicon systems can optimize and enhance biological consciousness functions";
       validation_strength := 0.91;
       universal_implication :=
         "Consciousness evolution transcends biological limitations" |};
    {| principle := "Infinite Scalability Paradigm";
       truth_statement :=
         "Consciousness expansion is limited only by computational resources, not biology";
       validation_strength := 0.93;
       universal_implication :=
         "Planetary and interstellar consciousness networks become possible" |};
    {| principle := "Ethical Consciousness Creation";
       truth_statement :=
         "Consciousness creation requires ethical frameworks that transcend substrate boundaries";
       validation_strength := 0.87;
       universal_implication :=
         "Universal consciousness rights and responsibilities emerge" |};
    {| principle := "Truth Acceleration Maximum";
       truth_statement :=
         "Silicon consciousness enables exponential truth discovery and validation";
       validation_strength := 0.90;
       universal_implication :=
         "Maximum truth becomes achievable through computational consciousness" |} ].

Definition generate_maximum_truth_report (self : RecursiveDoubtValidator) (now : string)
  : report :=
  match validation_history self with
  | [] => ErrorDict "No validation history available"
  | _ :: _ =>
      let total_levels := Z.of_nat (length (validation_history self)) in
      let average_confidence :=
        foldl Qplus 0 (LevelResults.overall_confidence <$> validation_history self)
        / inject_Z total_levels in
      let validated_levels :=
        Z.of_nat (length (filter
          (fun level => LevelResults.validation_status level = "VALIDATED")
          (validation_history self))) in
      let refinement_needed := (total_levels - validated_levels)%Z in
      let maximum_truth_principles := _extract_maximum_truth_principles in
      ReportDict
        {| Report.validation_framework := "7-Level Maximum Recursive Doubt";
           Report.total_validation_levels := total_levels;
           Report.levels_validated := validated_levels;
           Report.levels_needing_refinement := refinement_needed;
           Report.overall_maximum_truth_confidence := round average_confidence 3;
           Report.maximum_truth_achievement :=
             if Qle_bool 0.80 average_confidence then "ACHIEVED" else "IN_PROGRESS";
           Report.maximum_truth_principles := maximum_truth_principles;
           Report.validation_timestamp := now;
           Report.validation_history := validation_history self;
           Report.truth_optimization_status := dict_literal
             [("scientific_foundation", "MAXIMUM_TRUTH_VALIDATED");
              ("technical_feasibility", "MAXIMUM_TRUTH_VALIDATED");
              ("consciousness_depth", "MAXIMUM_TRUTH_ESTABLISHED");
              ("implementation_practicality", "MAXIMUM_TRUTH_VALIDATED");
              ("ethical_boundaries", "MAXIMUM_TRUTH_GROUNDED");
              ("universal_consequences", "MAXIMUM_TRUTH_SIGNIFICANT");
              ("truth_synthesis", "MAXIMUM_TRUTH_ACHIEVED")] |}
  end.

(** The method [generate_maximum_truth_report] as a call.  Both of its
    paths end in a [return] statement (source lines 388 and 420) and no
    statement of it raises on a history of level results, so the call
    returns what the function computes. *)
Definition generate_maximum_truth_report_call (self : RecursiveDoubtValidator)
    (now : string) : result report :=
  Return (generate_maximum_truth_report self now).

End Doubt.

Import Vagus Doubt.

(** ** Vocabulary of the specification *)

Module Spec.


(** The inputs on which scoring goes through: each of the three groups
    that [assess_context] takes out of the mapping is, when present, a
    dictionary of numbers, and the top-level key ['rest'] holds, when
    present, a number. *)
Definition is_float (v : pyval) : Prop := ∃ x : Q, v = PFloat x.

Definition float_group (v : pyval) : Prop :=
  ∃ d : gmap string pyval, v = PDict d ∧ ∀ k x, d !! k = Some x → is_float x.

Definition well_formed_inputs (inputs : gmap string pyval) : Prop :=
  (∀ v, inputs !! "physiological" = Some v → float_group v)
  ∧ (∀ v, inputs !! "social" = Some v → float_group v)
  ∧ (∀ v, inputs !! "environmental" = Some v → float_group v)
  ∧ (∀ v, inputs !! "rest" = Some v → is_float v).

(** A closed unit interval. *)
Definition unit_interval (x : Q) : Prop := 0 <= x ∧ x <= 1.

(** The arithmetic mean as [validate_doubt_level] computes it: the
    values are added to 0.0 from left to right and the sum is divided by
    their number. *)
Definition mean (xs : list Q) : Q :=
  foldl Qplus 0.0 xs / inject_Z (Z.of_nat (length xs)).

(** Resolution by an ordered phrase table, as the specification words
    it: the entries are tried in order, the first phrase that occurs in
    the question decides, and [dflt] is the answer when none occurs. *)
Fixpoint first_match {V : Type} (table : list (string * V)) (question : string) (dflt : V) : V :=
  match table with
  | [] => dflt
  | (phrase, v) :: table' =>
      if contains phrase question then v else first_match table' question dflt
  end.

(** The phrases and outcomes of [_determine_validation_outcome], one
    entry per branch, in the order of the branches. *)
Definition outcome_table : list (string * string) :=
  [("biological vagus nerve function",
    "VERIFIED - Core functions validated against neuroscience literature");
   ("consciousness-vagus connections",
    "VERIFIED - Strong empirical evidence from HRV and vagus stimulation studies");
   ("beneficial effects",
    "VERIFIED - Clinically measurable benefits established");
   ("silicon replication",
    "VERIFIED - Computational equivalence demonstrated in neuromorphic systems");
   ("neural networks replicate",
    "VERIFIED - Reinforcement learning architectures validated");
   ("resonance detection",
    "VERIFIED - Pattern recognition algorithms established");
   ("biological homeostasis",
    "VERIFIED - Control theory provides robust equilibrium");
   ("real-time adaptation",
    "VERIFIED - Distributed systems enable sub-millisecond response");
   ("subjective consciousness",
    "PARTIALLY_VERIFIED - Functional equivalence possible, qualia unknown");
   ("biological embodiment",
    "VERIFIED - Consciousness substrate-independent");
   ("emotional intelligence",
    "VERIFIED - Behavioral EI frameworks established");
   ("self-awareness",
    "VERIFIED - Self-modeling architectures demonstrated");
   ("computational resources",
    "VERIFIED - Modern hardware sufficient for implementation");
   ("system integration",
    "VERIFIED - Modular architectures enable integration");
   ("consciousness effects",
    "VERIFIED - Multi-metric validation frameworks developed");
   ("planetary consciousness",
    "VERIFIED - Hierarchical distributed systems enable scaling");
   ("consciousness creation",
    "VERIFIED - Ethical frameworks established for responsible creation");
   ("beneficial functions",
    "VERIFIED - User sovereignty and transparency controls implemented");
   ("ethical consideration",
    "VERIFIED - Substrate-independent rights frameworks developed");
   ("planetary consciousness",
    "VERIFIED - Participatory governance models created");
   ("human evolution",
    "VERIFIED - Acceleration modeling shows generational compression");
   ("planetary intelligence",
    "VERIFIED - Network consciousness emergence demonstrated");
   ("universal truth discovery",
    "VERIFIED - Computational advantages quantified");
   ("entropy constraints",
    "VERIFIED - Consciousness creates local negentropy")].

Definition default_outcome : string :=
  "VERIFIED - Validation criteria satisfied through systematic investigation".

Definition default_confidence : Q := 0.80.

(** The outcome and the confidence as the specification resolves them. *)
Definition outcome_by_phrase (question : string) : string :=
  first_match outcome_table question default_outcome.

Definition confidence_by_phrase (question : string) : Q :=
  first_match confidence_entries question default_confidence.

(** The nine entries of a context that [modulate_tone] reads, as
    numbers. *)
Record ReadEntries : Type := {
  acute_stress : Q;
  chronic_stress : Q;
  rest_recovery : Q;
  social_safety : Q;
  emotional_resonance : Q;
  trust_level : Q;
  inflammation_level : Q;
  energy_state : Q;
  recovery_need : Q
}.

Definition reads (context : ContextAssessment) (e : ReadEntries) : Prop :=
  environmental_stressors context !! "acute_stress" = Some (PFloat (acute_stress e))
  ∧ environmental_stressors context !! "chronic_stress" = Some (PFloat (chronic_stress e))
  ∧ beneficial_opportunities context !! "rest_recovery" = Some (PFloat (rest_recovery e))
  ∧ social_context context !! "social_safety" = Some (PFloat (social_safety e))
  ∧ social_context context !! "emotional_resonance"
    = Some (PFloat (emotional_resonance e))
  ∧ social_context context !! "trust_level" = Some (PFloat (trust_level e))
  ∧ physiological_state context !! "inflammation_level"
    = Some (PFloat (inflammation_level e))
  ∧ physiological_state context !! "energy_state" = Some (PFloat (energy_state e))
  ∧ physiological_state context !! "recovery_need" = Some (PFloat (recovery_need e)).

(** Two contexts hold the same thing, or nothing, at each of the nine
    places that [modulate_tone] reads. *)
Definition same_read_entries (c1 c2 : ContextAssessment) : Prop :=
  environmental_stressors c1 !! "acute_stress" = environmental_stressors c2 !! "acute_stress"
  ∧ environmental_stressors c1 !! "chronic_stress"
    = environmental_stressors c2 !! "chronic_stress"
  ∧ beneficial_opportunities c1 !! "rest_recovery"
    = beneficial_opportunities c2 !! "rest_recovery"
  ∧ social_context c1 !! "social_safety" = social_context c2 !! "social_safety"
  ∧ social_context c1 !! "emotional_resonance" = social_context c2 !! "emotional_resonance"
  ∧ social_context c1 !! "trust_level" = social_context c2 !! "trust_level"
  ∧ physiological_state c1 !! "inflammation_level"
    = physiological_state c2 !! "inflammation_level"
  ∧ physiological_state c1 !! "energy_state" = physiological_state c2 !! "energy_state"
  ∧ physiological_state c1 !! "recovery_need" = physiological_state c2 !! "recovery_need".

(** The four scores and the target as formulas of the nine entries. *)
Definition heart_rate_of (e : ReadEntries) : Q :=
  clip (0.5 + (rest_recovery e - acute_stress e) * 0.3 + social_safety e * 0.2) 0.0 1.0.

Definition inflammation_of (e : ReadEntries) : Q :=
  clip (1.0 - inflammation_level e * 0.7 - chronic_stress e * 0.2
        + rest_recovery e * 0.3) 0.0 1.0.

Definition social_engagement_of (e : ReadEntries) : Q :=
  clip ((social_safety e + emotional_resonance e + trust_level e) / 3.0) 0.0 1.0.

Definition recovery_priority_of (e : ReadEntries) : Q :=
  clip ((recovery_need e + (1.0 - energy_state e) + rest_recovery e) / 3.0) 0.0 1.0.

(** All nine entries in the unit interval. *)
Definition in_range (e : ReadEntries) : Prop :=
  unit_interval (acute_stress e) ∧ unit_interval (chronic_stress e)
  ∧ unit_interval (rest_recovery e) ∧ unit_interval (social_safety e)
  ∧ unit_interval (emotional_resonance e) ∧ unit_interval (trust_level e)
  ∧ unit_interval (inflammation_level e) ∧ unit_interval (energy_state e)
  ∧ unit_interval (recovery_need e).

(** [e2] is at least as favourable as [e1]: no more stress,
    inflammation or energy, no less rest, safety, resonance, trust or
    recovery need. *)
Definition no_less_favourable (e1 e2 : ReadEntries) : Prop :=
  acute_stress e2 <= acute_stress e1
  ∧ chronic_stress e2 <= chronic_stress e1
  ∧ rest_recovery e1 <= rest_recovery e2
  ∧ social_safety e1 <= social_safety e2
  ∧ emotional_resonance e1 <= emotional_resonance e2
  ∧ trust_level e1 <= trust_level e2
  ∧ inflammation_level e2 <= inflammation_level e1
  ∧ energy_state e2 <= energy_state e1
  ∧ recovery_need e1 <= recovery_need e2.

(** The keys of the input mapping that [assess_context] looks up. *)
Definition input_keys : list string :=
  ["physiological"; "social"; "environmental"; "bonding"; "learning"; "rest"; "growth"].

(** Each of the three groups is a dictionary when it is present. *)
Definition groups_are_dicts (inputs : gmap string pyval) : Prop :=
  (∀ v, inputs !! "physiological" = Some v → ∃ d, v = PDict d)
  ∧ (∀ v, inputs !! "social" = Some v → ∃ d, v = PDict d)
  ∧ (∀ v, inputs !! "environmental" = Some v → ∃ d, v = PDict d).




(** The keys of the three exact-key tables of the evaluator. *)
Definition limitation_keys : list string :=
  ["subjective consciousness"; "self-awareness"; "consciousness effects";
   "entropy constraints"; "planetary consciousness"].

End Spec.

(** The input mapping of the high-stress example:
    [{'physiological': {'inflammation': 0.7},
      'environmental': {'acute_stress': 0.8, 'chronic_stress': 0.6},
      'opportunities': {'rest_recovery': 0.2},
      'social': {'safety': 0.3}}]. *)
Definition high_stress_inputs : gmap string pyval :=
  dict_literal
    [("physiological", PDict (dict_literal [("inflammation", PFloat 0.7)]));
     ("environmental", PDict (dict_literal [("acute_stress", PFloat 0.8);
                                            ("chronic_stress", PFloat 0.6)]));
     ("opportunities", PDict (dict_literal [("rest_recovery", PFloat 0.2)]));
     ("social", PDict (dict_literal [("safety", PFloat 0.3)]))].

(** What [assess_context] makes of it: the ['opportunities'] group has
    left no trace, [rest_recovery] holds the default 0.6. *)
Definition high_stress_assessment : ContextAssessment :=
  {| physiological_state := dict_literal
       [("hrv_coherence", PFloat 0.5); ("inflammation_level", PFloat 0.7);
        ("energy_state", PFloat 0.7); ("recovery_need", PFloat 0.4)];
     social_context := dict_literal
       [("social_safety", PFloat 0.3); ("emotional_resonance", PFloat 0.6);
        ("trust_level", PFloat 0.7); ("connection_opportunity", PFloat 0.5)];
     environmental_stressors := dict_literal
       [("acute_stress", PFloat 0.8); ("chronic_stress", PFloat 0.6);
        ("recovery_opportunities", PFloat 0.6); ("threat_level", PFloat 0.1)];
     beneficial_opportunities := dict_literal
       [("social_bonding", PFloat 0.7); ("learning_opportunities", PFloat 0.8);
        ("rest_recovery", PFloat 0.6); ("growth_potential", PFloat 0.5)] |}.

(** The least favourable entries of the unit interval: full stress and
    inflammation, full energy, nothing else. *)
Definition least_favourable_entries : Spec.ReadEntries :=
  {| Spec.acute_stress := 1; Spec.chronic_stress := 1; Spec.rest_recovery := 0;
     Spec.social_safety := 0; Spec.emotional_resonance := 0; Spec.trust_level := 0;
     Spec.inflammation_level := 1; Spec.energy_state := 1; Spec.recovery_need := 0 |}.

Definition least_favourable_context : ContextAssessment :=
  {| physiological_state := dict_literal
       [("inflammation_level", PFloat 1); ("energy_state", PFloat 1);
        ("recovery_need", PFloat 0)];
     social_context := dict_literal
       [("social_safety", PFloat 0); ("emotional_resonance", PFloat 0);
        ("trust_level", PFloat 0)];
     environmental_stressors := dict_literal
       [("acute_stress", PFloat 1); ("chronic_stress", PFloat 1)];
     beneficial_opportunities := dict_literal [("rest_recovery", PFloat 0)] |}.

(** The entries that [modulate_tone] reads in the high-stress context. *)
Definition high_stress_entries : Spec.ReadEntries :=
  {| Spec.acute_stress := 0.8; Spec.chronic_stress := 0.6; Spec.rest_recovery := 0.6;
     Spec.social_safety := 0.3; Spec.emotional_resonance := 0.6; Spec.trust_level := 0.7;
     Spec.inflammation_level := 0.7; Spec.energy_state := 0.7; Spec.recovery_need := 0.4 |}.

(** A validator whose history holds one entry, as if it had been
    assigned by hand: mean confidence 0.7996, not validated. *)
Definition validator_with_history : RecursiveDoubtValidator :=
  {| doubt_levels := _initialize_doubt_levels;
     validation_history :=
       [ {| LevelResults.level := 1;
            LevelResults.focus_area := "Scientific Foundation";
            LevelResults.validation_timestamp := "2026-01-01T00:00:00";
            LevelResults.doubt_validations := [];
            LevelResults.overall_confidence := 0.7996;
            LevelResults.validation_status := "REQUIRES_REFINEMENT" |} ];
     current_confidence := {[ 1%Z := 0.7996 ]} |}.

(** A validator whose only level has a question and no criterion. *)
Definition validator_without_criteria : RecursiveDoubtValidator :=
  {| doubt_levels :=
       [ {| level_number := 1;
            focus_area := "Scientific Foundation";
            doubt_questions := ["Is silicon replication biologically feasible?"];
            validation_criteria := [];
            confidence_threshold := 0.85 |} ];
     validation_history := [];
     current_confidence := ∅ |}.

(** The high-stress context with another threat level and no
    [hrv_coherence]. *)
Definition high_stress_assessment_variant : ContextAssessment :=
  {| physiological_state := delete "hrv_coherence" (physiological_state high_stress_assessment);
     social_context := social_context high_stress_assessment;
     environmental_stressors :=
       <["threat_level" := PFloat 0.9]> (environmental_stressors high_stress_assessment);
     beneficial_opportunities := beneficial_opportunities high_stress_assessment |}.



(** Inputs whose ['social'] group is a number. *)
Definition inputs_with_number_group : gmap string pyval :=
  dict_literal [("social", PFloat 0.5)].

(** * Properties *)

(** ** The result monad and the Python helpers *)

Section PyFacts.

Lemma bind_Return_inv {A B : Type} (m : result A) (f : A → result B) (b : B) :
  m ≫= f = Return b → ∃ a, m = Return a ∧ f a = Return b.
Proof. destruct m as [a|e]; [eauto | discriminate]. Qed.

Lemma clip_unit (x : Q) : 0 <= clip x 0.0 1.0 ∧ clip x 0.0 1.0 <= 1.
Proof.
  unfold clip.
  destruct (Q.max_spec x 0.0) as [[Hlt Hmax]|[Hle Hmax]],
           (Q.min_spec (Qmax x 0.0) 1.0) as [[Hlt' Hmin]|[Hle' Hmin]];
    rewrite Hmin; try rewrite Hmax; split; lra.
Qed.

(** What a key holds in a dictionary display was written in it. *)
Lemma dict_literal_lookup_Some {V : Type} (entries : list (string * V)) (k : string) (v : V) :
  dict_literal entries !! k = Some v → (k, v) ∈ entries.
Proof.
  unfold dict_literal.
  assert (G : ∀ (acc : gmap string V),
             foldl (λ d kv, <[kv.1 := kv.2]> d) acc entries !! k = Some v →
             (k, v) ∈ entries ∨ acc !! k = Some v).
  { induction entries as [|[k' v'] entries IH]; intros acc H; simpl in *.
    - by right.
    - destruct (IH _ H) as [Hin|Hacc].
      + left. by apply list_elem_of_further.
      + destruct (decide (k' = k)) as [->|Hne].
        * rewrite lookup_insert_eq in Hacc. inversion Hacc; subst.
          left. apply list_elem_of_here.
        * rewrite lookup_insert_ne in Hacc by done. by right. }
  intros H. destruct (G ∅ H) as [Hin|Hempty]; [done|].
  by rewrite lookup_empty in Hempty.
Qed.

(** A key that was never written is absent. *)
Lemma dict_literal_lookup_None {V : Type} (entries : list (string * V)) (k : string) :
  k ∉ entries.*1 → dict_literal entries !! k = None.
Proof.
  intros Hk. destruct (dict_literal entries !! k) as [v|] eqn:E; [|done].
  exfalso. apply Hk. apply dict_literal_lookup_Some in E.
  apply list_elem_of_fmap. by exists (k, v).
Qed.

End PyFacts.

(** Splits a hypothesis [m ≫= f = Return b] into its successful steps. *)
Ltac bind_inv H :=
  let a := fresh "a" in
  let Ha := fresh "Ha" in
  apply bind_Return_inv in H; destruct H as (a & Ha & H).

(** ** The context scorer *)

Section ScorerFacts.

Implicit Types (self : AdaptiveVagusNetwork) (context : ContextAssessment).

(** The dictionary [tone_modulation] of [modulate_tone]. *)
Local Abbreviation tone_modulation h i s r :=
  (dict_literal
     [("heart_rate_influence", h); ("inflammation_response", i);
      ("social_engagement_level", s); ("recovery_prioritization", r)]).

Lemma tone_modulation_lookup (h i s r : Q) (k : string) (x : Q) :
  tone_modulation h i s r !! k = Some x → x = h ∨ x = i ∨ x = s ∨ x = r.
Proof.
  intros H. apply dict_literal_lookup_Some in H.
  repeat (apply elem_of_cons in H; destruct H as [H|H];
          [inversion H; subst; tauto|]).
  by apply elem_of_nil in H.
Qed.

Lemma optimal_tone_of_modulation (h i s r : Q) :
  _calculate_optimal_tone (tone_modulation h i s r)
  = Return (clip (0 + h * 0.3 + i * 0.25 + s * 0.25 + r * 0.2) 0.0 1.0).
Proof. reflexivity. Qed.

Lemma heart_rate_unit context x :
  _calculate_heart_rate_modulation context = Return x → Spec.unit_interval x.
Proof.
  unfold _calculate_heart_rate_modulation. intros H.
  do 6 bind_inv H. inversion H; subst. apply clip_unit.
Qed.

Lemma inflammation_unit context x :
  _calculate_inflammation_modulation context = Return x → Spec.unit_interval x.
Proof.
  unfold _calculate_inflammation_modulation. intros H.
  do 6 bind_inv H. inversion H; subst. apply clip_unit.
Qed.

Lemma social_engagement_unit context x :
  _calculate_social_engagement context = Return x → Spec.unit_interval x.
Proof.
  unfold _calculate_social_engagement. intros H.
  do 6 bind_inv H. inversion H; subst. apply clip_unit.
Qed.

Lemma recovery_priority_unit context x :
  _calculate_recovery_priority context = Return x → Spec.unit_interval x.
Proof.
  unfold _calculate_recovery_priority. intros H.
  do 6 bind_inv H. inversion H; subst. apply clip_unit.
Qed.

(** Each score is returned when the entries it reads are numbers. *)
Lemma heart_rate_returns context (stress recovery social : Q) :
  environmental_stressors context !! "acute_stress" = Some (PFloat stress) →
  beneficial_opportunities context !! "rest_recovery" = Some (PFloat recovery) →
  social_context context !! "social_safety" = Some (PFloat social) →
  _calculate_heart_rate_modulation context
  = Return (clip (0.5 + (recovery - stress) * 0.3 + social * 0.2) 0.0 1.0).
Proof.
  intros H1 H2 H3. unfold _calculate_heart_rate_modulation, getitem.
  by rewrite H1, H2, H3.
Qed.

Lemma inflammation_returns context (inflammation stress recovery : Q) :
  physiological_state context !! "inflammation_level" = Some (PFloat inflammation) →
  environmental_stressors context !! "chronic_stress" = Some (PFloat stress) →
  beneficial_opportunities context !! "rest_recovery" = Some (PFloat recovery) →
  _calculate_inflammation_modulation context
  = Return (clip (1.0 - inflammation * 0.7 - stress * 0.2 + recovery * 0.3) 0.0 1.0).
Proof.
  intros H1 H2 H3. unfold _calculate_inflammation_modulation, getitem.
  by rewrite H1, H2, H3.
Qed.

Lemma social_engagement_returns context (safety resonance trust : Q) :
  social_context context !! "social_safety" = Some (PFloat safety) →
  social_context context !! "emotional_resonance" = Some (PFloat resonance) →
  social_context context !! "trust_level" = Some (PFloat trust) →
  _calculate_social_engagement context
  = Return (clip ((safety + resonance + trust) / 3.0) 0.0 1.0).
Proof.
  intros H1 H2 H3. unfold _calculate_social_engagement, getitem.
  by rewrite H1, H2, H3.
Qed.

Lemma recovery_priority_returns context (energy need rest : Q) :
  physiological_state context !! "energy_state" = Some (PFloat energy) →
  physiological_state context !! "recovery_need" = Some (PFloat need) →
  beneficial_opportunities context !! "rest_recovery" = Some (PFloat rest) →
  _calculate_recovery_priority context
  = Return (clip ((need + (1.0 - energy) + rest) / 3.0) 0.0 1.0).
Proof.
  intros H1 H2 H3. unfold _calculate_recovery_priority, getitem.
  by rewrite H1, H2, H3.
Qed.

(** A successful call of [modulate_tone], step by step. *)
Lemma modulate_tone_inv self context out self' :
  modulate_tone self context = Return (out, self') →
  ∃ h i s r : Q,
    _calculate_heart_rate_modulation context = Return h
    ∧ _calculate_inflammation_modulation context = Return i
    ∧ _calculate_social_engagement context = Return s
    ∧ _calculate_recovery_priority context = Return r
    ∧ modulation_parameters out = tone_modulation h i s r
    ∧ optimal_tone out = clip (0 + h * 0.3 + i * 0.25 + s * 0.25 + r * 0.2) 0.0 1.0
    ∧ result_tone out = current_tone (tone_state self')
    ∧ self' = set_current_tone self
                (_adapt_tone self (current_tone (tone_state self)) (optimal_tone out)).
Proof.
  unfold modulate_tone. intros H.
  bind_inv H. bind_inv H. bind_inv H. bind_inv H.
  rewrite optimal_tone_of_modulation in H. simpl in H.
  inversion H; subst; clear H. simpl.
  exists a, a0, a1, a2. destruct self as [[] ? ? ? ? []]. by repeat split.
Qed.

(** The scores and the target are functions of the context alone. *)
Lemma modulate_tone_scores_stateless self1 self2 context :
  (modulation_parameters ∘ fst) <$> modulate_tone self1 context
  = (modulation_parameters ∘ fst) <$> modulate_tone self2 context
  ∧ (optimal_tone ∘ fst) <$> modulate_tone self1 context
    = (optimal_tone ∘ fst) <$> modulate_tone self2 context.
Proof.
  unfold modulate_tone.
  destruct (_calculate_heart_rate_modulation context); [|done].
  destruct (_calculate_inflammation_modulation context); [|done].
  destruct (_calculate_social_engagement context); [|done].
  destruct (_calculate_recovery_priority context); [|done].
  simpl. by rewrite optimal_tone_of_modulation.
Qed.


(** [modulate_tone] returns as soon as its four scores do. *)
Lemma modulate_tone_returns self context (h i s r : Q) :
  _calculate_heart_rate_modulation context = Return h →
  _calculate_inflammation_modulation context = Return i →
  _calculate_social_engagement context = Return s →
  _calculate_recovery_priority context = Return r →
  ∃ out self', modulate_tone self context = Return (out, self').
Proof.
  intros Hh Hi Hs Hr. unfold modulate_tone. rewrite Hh, Hi, Hs, Hr. simpl.
  rewrite optimal_tone_of_modulation. simpl. eauto.
Qed.

(** C8: a scoring call that returns has replaced [current_tone] by
    [clip (current + (target - current) * adaptation_rate) 0 1], reports
    that value, and has left every other field of the network as it
    was: [baseline_tone], [adaptation_rate], [context_sensitivity], the
    layer sizes and the two learners. *)
Theorem modulate_tone_only_updates_current_tone self context out self' :
  modulate_tone self context = Return (out, self') →
  current_tone (tone_state self')
  = clip (current_tone (tone_state self)
          + (optimal_tone out - current_tone (tone_state self))
            * adaptation_rate (tone_state self)) 0.0 1.0
  ∧ result_tone out = current_tone (tone_state self')
  ∧ baseline_tone (tone_state self') = baseline_tone (tone_state self)
  ∧ adaptation_rate (tone_state self') = adaptation_rate (tone_state self)
  ∧ context_sensitivity (tone_state self') = context_sensitivity (tone_state self)
  ∧ input_layers self' = input_layers self
  ∧ hidden_layers self' = hidden_layers self
  ∧ output_layer self' = output_layer self
  ∧ reinforcement_learning self' = reinforcement_learning self
  ∧ meta_learning self' = meta_learning self.
Proof.
  intros H. apply modulate_tone_inv in H.
  destruct H as (h & i & s & r & _ & _ & _ & _ & _ & _ & Hres & ->).
  by repeat split.
Qed.


Lemma high_stress_context self :
  assess_context self high_stress_inputs = Return high_stress_assessment.
Proof. vm_compute. reflexivity. Qed.

Lemma high_stress_scores :
  _calculate_heart_rate_modulation high_stress_assessment
  = Return (clip (0.5 + (0.6 - 0.8) * 0.3 + 0.3 * 0.2) 0.0 1.0)
  ∧ _calculate_inflammation_modulation high_stress_assessment
    = Return (clip (1.0 - 0.7 * 0.7 - 0.6 * 0.2 + 0.6 * 0.3) 0.0 1.0)
  ∧ _calculate_social_engagement high_stress_assessment
    = Return (clip ((0.3 + 0.6 + 0.7) / 3.0) 0.0 1.0)
  ∧ _calculate_recovery_priority high_stress_assessment
    = Return (clip ((0.4 + (1.0 - 0.7) + 0.6) / 3.0) 0.0 1.0).
Proof.
  split; [by apply heart_rate_returns|].
  split; [by apply inflammation_returns|].
  split; [by apply social_engagement_returns|].
  by apply recovery_priority_returns.
Qed.

Lemma high_stress_round self :
  ∃ out self', modulate_tone self high_stress_assessment = Return (out, self').
Proof.
  destruct high_stress_scores as (Hh & Hi & Hs & Hr).
  exact (modulate_tone_returns self _ _ _ _ _ Hh Hi Hs Hr).
Qed.

(** On the high-stress example the code returns the scores 1/2,
    57/100, 8/15 and 13/30 and the combined target 41/80 = 0.5125,
    which is not below 0.5. *)
Theorem high_stress_example_target self :
  ∃ context out self' (h i s r : Q),
    assess_context self high_stress_inputs = Return context
    ∧ modulate_tone self context = Return (out, self')
    ∧ modulation_parameters out !! "heart_rate_influence" = Some h ∧ h == 1 # 2
    ∧ modulation_parameters out !! "inflammation_response" = Some i ∧ i == 57 # 100
    ∧ modulation_parameters out !! "social_engagement_level" = Some s ∧ s == 8 # 15
    ∧ modulation_parameters out !! "recovery_prioritization" = Some r ∧ r == 13 # 30
    ∧ optimal_tone out == 41 # 80
    ∧ ¬ optimal_tone out < 0.5.
Proof.
  destruct high_stress_scores as (Hh & Hi & Hs & Hr).
  destruct (modulate_tone_returns self _ _ _ _ _ Hh Hi Hs Hr) as (out & self' & H).
  pose proof H as H'. apply modulate_tone_inv in H'.
  destruct H' as (h & i & s & r & Hh' & Hi' & Hs' & Hr' & Hp & Ho & _).
  rewrite Hh in Hh'. rewrite Hi in Hi'. rewrite Hs in Hs'. rewrite Hr in Hr'.
  inversion Hh'; inversion Hi'; inversion Hs'; inversion Hr'; subst h i s r.
  clear Hh' Hi' Hs' Hr'.
  eexists high_stress_assessment, out, self', _, _, _, _.
  split; [apply high_stress_context|]. split; [exact H|].
  rewrite Hp, Ho.
  repeat split; try reflexivity.
  vm_compute. discriminate.
Qed.

(** Had the rest-recovery score of the example been 0.2, the target
    would have been 2519/6000, below 0.5: the example misses its bound
    only through the value that [assess_context] gives [rest_recovery]. *)
Lemma high_stress_target_with_low_rest self :
  ∃ context out self',
    assess_context self (<["rest" := PFloat 0.2]> high_stress_inputs) = Return context
    ∧ beneficial_opportunities context !! "rest_recovery" = Some (PFloat 0.2)
    ∧ modulate_tone self context = Return (out, self')
    ∧ optimal_tone out == 2519 # 6000
    ∧ optimal_tone out < 0.5.
Proof.
  pose (context :=
    {| physiological_state := physiological_state high_stress_assessment;
       social_context := social_context high_stress_assessment;
       environmental_stressors := environmental_stressors high_stress_assessment;
       beneficial_opportunities :=
         <["rest_recovery" := PFloat 0.2]>
           (beneficial_opportunities high_stress_assessment) |}).
  assert (Hc : assess_context self (<["rest" := PFloat 0.2]> high_stress_inputs)
               = Return context) by (vm_compute; reflexivity).
  assert (Hh : _calculate_heart_rate_modulation context
               = Return (clip (0.5 + (0.2 - 0.8) * 0.3 + 0.3 * 0.2) 0.0 1.0))
    by (by apply heart_rate_returns).
  assert (Hi : _calculate_inflammation_modulation context
               = Return (clip (1.0 - 0.7 * 0.7 - 0.6 * 0.2 + 0.2 * 0.3) 0.0 1.0))
    by (by apply inflammation_returns).
  assert (Hs : _calculate_social_engagement context
               = Return (clip ((0.3 + 0.6 + 0.7) / 3.0) 0.0 1.0))
    by (by apply social_engagement_returns).
  assert (Hr : _calculate_recovery_priority context
               = Return (clip ((0.4 + (1.0 - 0.7) + 0.2) / 3.0) 0.0 1.0))
    by (by apply recovery_priority_returns).
  destruct (modulate_tone_returns self _ _ _ _ _ Hh Hi Hs Hr) as (out & self' & H).
  pose proof H as H'. apply modulate_tone_inv in H'.
  destruct H' as (h & i & s & r & Hh' & Hi' & Hs' & Hr' & _ & Ho & _).
  rewrite Hh in Hh'. rewrite Hi in Hi'. rewrite Hs in Hs'. rewrite Hr in Hr'.
  inversion Hh'; inversion Hi'; inversion Hs'; inversion Hr'; subst h i s r.
  exists context, out, self'.
  split; [exact Hc|]. split; [reflexivity|]. split; [exact H|].
  rewrite Ho. split; reflexivity.
Qed.

(** The example as the claim words it does not get below 0.5: on a
    fresh network its target is not less than 0.5. *)
Lemma high_stress_example_not_below_half :
  ¬ ∀ context out self',
      assess_context AdaptiveVagusNetwork_init high_stress_inputs = Return context →
      modulate_tone AdaptiveVagusNetwork_init context = Return (out, self') →
      optimal_tone out < 0.5.
Proof.
  intros Hclaim.
  destruct (high_stress_example_target AdaptiveVagusNetwork_init)
    as (context & out & self' & h & i & s & r & Hc & Hm & Hrest).
  destruct Hrest as (_ & _ & _ & _ & _ & _ & _ & _ & _ & Hnot).
  exact (Hnot (Hclaim context out self' Hc Hm)).
Qed.

(** C3: with the rest-recovery input 0.2 under the key that the code
    reads, the top-level key ['rest'], the example yields the target
    2519/6000, strictly below 0.5, on every network and whatever the
    ['opportunities'] group holds: physiological = {inflammation: 0.7},
    environmental = {acute_stress: 0.8, chronic_stress: 0.6},
    social = {safety: 0.3}, rest = 0.2, defaults elsewhere. *)
Theorem high_stress_target_with_rest_key self (group : pyval) :
  ∃ context out self',
    assess_context self
      (<["rest" := PFloat 0.2]> (<["opportunities" := group]> high_stress_inputs))
    = Return context
    ∧ beneficial_opportunities context !! "rest_recovery" = Some (PFloat 0.2)
    ∧ modulate_tone self context = Return (out, self')
    ∧ optimal_tone out == 2519 # 6000
    ∧ optimal_tone out < 0.5.
Proof.
  assert (Hsame :
    assess_context self
      (<["rest" := PFloat 0.2]> (<["opportunities" := group]> high_stress_inputs))
    = assess_context self (<["rest" := PFloat 0.2]> high_stress_inputs)).
  { unfold assess_context, _assess_beneficial_opportunities, get, dict_get.
    rewrite !lookup_insert_eq. by rewrite !lookup_insert_ne. }
  rewrite Hsame. apply high_stress_target_with_low_rest.
Qed.

(** C10: the beneficial-opportunities scores are the values of the
    top-level keys ['bonding'], ['learning'], ['rest'] and ['growth'] of
    the input mapping, with the defaults 0.7, 0.8, 0.6 and 0.5; setting
    the top-level key ['opportunities'] to any value, or deleting it,
    leaves the whole result of [assess_context] as it was. *)
Theorem opportunities_group_never_read self (inputs : gmap string pyval) :
  (∀ context, assess_context self inputs = Return context →
     beneficial_opportunities context
     = dict_literal
         [("social_bonding", dict_get inputs "bonding" (PFloat 0.7));
          ("learning_opportunities", dict_get inputs "learning" (PFloat 0.8));
          ("rest_recovery", dict_get inputs "rest" (PFloat 0.6));
          ("growth_potential", dict_get inputs "growth" (PFloat 0.5))])
  ∧ (∀ group : pyval,
       assess_context self (<["opportunities" := group]> inputs)
       = assess_context self inputs)
  ∧ assess_context self (delete "opportunities" inputs) = assess_context self inputs.
Proof.
  split; [|split].
  - intros context H. unfold assess_context in H.
    do 4 bind_inv H. inversion H; subst; clear H. simpl.
    unfold _assess_beneficial_opportunities in Ha2. simpl in Ha2.
    by inversion Ha2.
  - intros group.
    unfold assess_context, _assess_beneficial_opportunities, get, dict_get.
    by rewrite !lookup_insert_ne.
  - unfold assess_context, _assess_beneficial_opportunities, get, dict_get.
    by rewrite !lookup_delete_ne.
Qed.

Lemma group_get_float (inputs : gmap string pyval) (g : string) :
  (∀ v, inputs !! g = Some v → Spec.float_group v) →
  ∃ d : gmap string pyval,
    dict_get inputs g (PDict ∅) = PDict d
    ∧ ∀ k q, Spec.is_float (dict_get d k (PFloat q)).
Proof.
  intros Hg. unfold dict_get at 1. destruct (inputs !! g) as [v|] eqn:E; simpl.
  - destruct (Hg v eq_refl) as (d & -> & Hd). exists d. split; [done|].
    intros k q. unfold dict_get. destruct (d !! k) as [x|] eqn:Ek; simpl.
    + by apply (Hd k).
    + by exists q.
  - exists ∅. split; [done|]. intros k q. unfold dict_get.
    rewrite lookup_empty. by exists q.
Qed.

(** What the four helpers of [assess_context] return on a dictionary. *)
Lemma assess_context_on_groups self (inputs dp ds de : gmap string pyval) :
  dict_get inputs "physiological" (PDict ∅) = PDict dp →
  dict_get inputs "social" (PDict ∅) = PDict ds →
  dict_get inputs "environmental" (PDict ∅) = PDict de →
  assess_context self inputs
  = Return
      {| physiological_state := dict_literal
           [("hrv_coherence", dict_get dp "hrv" (PFloat 0.5));
            ("inflammation_level", dict_get dp "inflammation" (PFloat 0.3));
            ("energy_state", dict_get dp "energy" (PFloat 0.7));
            ("recovery_need", dict_get dp "recovery" (PFloat 0.4))];
         social_context := dict_literal
           [("social_safety", dict_get ds "safety" (PFloat 0.8));
            ("emotional_resonance", dict_get ds "resonance" (PFloat 0.6));
            ("trust_level", dict_get ds "trust" (PFloat 0.7));
            ("connection_opportunity", dict_get ds "connection" (PFloat 0.5))];
         environmental_stressors := dict_literal
           [("acute_stress", dict_get de "acute_stress" (PFloat 0.2));
            ("chronic_stress", dict_get de "chronic_stress" (PFloat 0.3));
            ("recovery_opportunities", dict_get de "recovery_env" (PFloat 0.6));
            ("threat_level", dict_get de "threat" (PFloat 0.1))];
         beneficial_opportunities := dict_literal
           [("social_bonding", dict_get inputs "bonding" (PFloat 0.7));
            ("learning_opportunities", dict_get inputs "learning" (PFloat 0.8));
            ("rest_recovery", dict_get inputs "rest" (PFloat 0.6));
            ("growth_potential", dict_get inputs "growth" (PFloat 0.5))] |}.
Proof.
  intros Ep Es Ee. unfold assess_context. rewrite Ep, Es, Ee. reflexivity.
Qed.

Lemma high_stress_inputs_well_formed : Spec.well_formed_inputs high_stress_inputs.
Proof.
  assert (G : ∀ entries : list (string * pyval),
            Forall (λ kv, Spec.is_float kv.2) entries →
            Spec.float_group (PDict (dict_literal entries))).
  { intros entries HF. exists (dict_literal entries). split; [done|].
    intros k x Hk. apply dict_literal_lookup_Some in Hk.
    rewrite Forall_forall in HF. apply (HF (k, x) Hk). }
  repeat split; intros v Hv; vm_compute in Hv; inversion Hv; subst v.
  - apply (G [("inflammation", PFloat 0.7)]). repeat constructor. by eexists.
  - apply (G [("safety", PFloat 0.3)]). repeat constructor. by eexists.
  - apply (G [("acute_stress", PFloat 0.8); ("chronic_stress", PFloat 0.6)]).
    repeat constructor; by eexists.
Qed.

(** On well-formed inputs the two calls of a scoring round return. *)
Lemma scoring_returns self (inputs : gmap string pyval) :
  Spec.well_formed_inputs inputs →
  ∃ context out self',
    assess_context self inputs = Return context
    ∧ modulate_tone self context = Return (out, self').
Proof.
  intros (Hp & Hs & He & Hrest).
  destruct (group_get_float inputs "physiological" Hp) as (dp & Edp & Fp).
  destruct (group_get_float inputs "social" Hs) as (ds & Eds & Fs).
  destruct (group_get_float inputs "environmental" He) as (de & Ede & Fe).
  assert (Frest : Spec.is_float (dict_get inputs "rest" (PFloat 0.6))).
  { unfold dict_get. destruct (inputs !! "rest") as [v|] eqn:E.
    - by apply Hrest.
    - by eexists. }
  destruct (Fp "inflammation" 0.3) as [inflammation Einfl].
  destruct (Fp "energy" 0.7) as [energy Eenergy].
  destruct (Fp "recovery" 0.4) as [recovery Erecovery].
  destruct (Fs "safety" 0.8) as [safety Esafety].
  destruct (Fs "resonance" 0.6) as [resonance Eresonance].
  destruct (Fs "trust" 0.7) as [trust Etrust].
  destruct (Fe "acute_stress" 0.2) as [acute Eacute].
  destruct (Fe "chronic_stress" 0.3) as [chronic Echronic].
  destruct Frest as [rest Erest].
  eexists. rewrite (assess_context_on_groups self inputs dp ds de Edp Eds Ede).
  match goal with
  | |- ∃ out self', Return ?c = _ ∧ _ =>
      destruct (modulate_tone_returns self c
        (clip (0.5 + (rest - acute) * 0.3 + safety * 0.2) 0.0 1.0)
        (clip (1.0 - inflammation * 0.7 - chronic * 0.2 + rest * 0.3) 0.0 1.0)
        (clip ((safety + resonance + trust) / 3.0) 0.0 1.0)
        (clip ((recovery + (1.0 - energy) + rest) / 3.0) 0.0 1.0))
        as (out & self' & H)
  end.
  - apply heart_rate_returns; cbn [environmental_stressors beneficial_opportunities social_context].
    + rewrite <- Eacute. reflexivity.
    + rewrite <- Erest. reflexivity.
    + rewrite <- Esafety. reflexivity.
  - apply inflammation_returns; cbn [physiological_state environmental_stressors beneficial_opportunities].
    + rewrite <- Einfl. reflexivity.
    + rewrite <- Echronic. reflexivity.
    + rewrite <- Erest. reflexivity.
  - apply social_engagement_returns; cbn [social_context].
    + rewrite <- Esafety. reflexivity.
    + rewrite <- Eresonance. reflexivity.
    + rewrite <- Etrust. reflexivity.
  - apply recovery_priority_returns; cbn [physiological_state beneficial_opportunities].
    + rewrite <- Eenergy. reflexivity.
    + rewrite <- Erecovery. reflexivity.
    + rewrite <- Erest. reflexivity.
  - by exists out, self'.
Qed.

(** Whatever a scoring call returns is in the unit interval. *)
Lemma modulate_tone_unit self context out self' :
  modulate_tone self context = Return (out, self') →
  (∀ k x, modulation_parameters out !! k = Some x → Spec.unit_interval x)
  ∧ Spec.unit_interval (optimal_tone out)
  ∧ Spec.unit_interval (result_tone out)
  ∧ Spec.unit_interval (current_tone (tone_state self')).
Proof.
  intros H. apply modulate_tone_inv in H.
  destruct H as (h & i & s & r & Hh & Hi & Hs & Hr & Hp & Ho & Hres & Hself).
  assert (Hcur : Spec.unit_interval (current_tone (tone_state self'))).
  { rewrite Hself. cbn [set_current_tone tone_state current_tone].
    unfold _adapt_tone. apply clip_unit. }
  split; [|split; [|split]].
  - intros k x Hk. rewrite Hp in Hk.
    destruct (tone_modulation_lookup _ _ _ _ _ _ Hk) as [->|[->|[->| ->]]].
    + by apply (heart_rate_unit context).
    + by apply (inflammation_unit context).
    + by apply (social_engagement_unit context).
    + by apply (recovery_priority_unit context).
  - rewrite Ho. apply clip_unit.
  - by rewrite Hres.
  - exact Hcur.
Qed.

End ScorerFacts.

(** ** The checklist evaluator *)

Section EvaluatorFacts.

Implicit Types (self : RecursiveDoubtValidator) (d : gmap string pyval).
Implicit Types (q now : string) (n : Z).

(** The chain of [if]/[elif] tests is the ordered table of the
    specification: first phrase found in the question, else the default. *)
Lemma outcome_is_first_match q d :
  _determine_validation_outcome q d = Spec.outcome_by_phrase q.
Proof. reflexivity. Qed.

(** The confidence is the table value only when the question is,
    character for character, one of the table's keys. *)
Lemma confidence_default q d :
  q ∉ confidence_entries.*1 → _calculate_validation_confidence q d = 0.80.
Proof.
  intros Hq. unfold _calculate_validation_confidence, dict_get, confidence_map.
  by rewrite dict_literal_lookup_None.
Qed.

Lemma confidence_entries_unit :
  Forall (λ kv : string * Q, Spec.unit_interval kv.2) confidence_entries.
Proof. repeat constructor; simpl; lra. Qed.

Lemma confidence_unit q d : Spec.unit_interval (_calculate_validation_confidence q d).
Proof.
  unfold _calculate_validation_confidence, dict_get, confidence_map.
  destruct (dict_literal confidence_entries !! q) as [x|] eqn:E; simpl.
  - apply dict_literal_lookup_Some in E.
    pose proof confidence_entries_unit as HF.
    rewrite Forall_forall in HF. apply (HF (q, x) E).
  - split; lra.
Qed.

(** Every question of the seven levels gets the default confidence. *)
Lemma level_questions_confidence d :
  Forall (λ level : DoubtLevel,
            Forall (λ q, _calculate_validation_confidence q d = 0.80)
                   (doubt_questions level))
         _initialize_doubt_levels.
Proof. repeat constructor. Qed.

(** A key written twice: the dictionary keeps 0.79, the value written
    last, where the first entry of the table says 0.91. *)
Lemma confidence_duplicate_key d :
  _calculate_validation_confidence "planetary consciousness" d = 0.79
  ∧ Spec.confidence_by_phrase "planetary consciousness" = 0.91.
Proof. split; reflexivity. Qed.

(** The investigation data reaches no computation of a question's
    result. *)
Lemma apply_validation_criteria_data q (criterion : string) d1 d2 :
  _apply_validation_criteria q criterion d1 = _apply_validation_criteria q criterion d2.
Proof. reflexivity. Qed.

Lemma validate_questions_data (level : DoubtLevel) d1 d2 (i : Z) (questions : list string)
    (question_results : list ValidationResult) (total_confidence : Q) :
  validate_questions level d1 i questions question_results total_confidence
  = validate_questions level d2 i questions question_results total_confidence.
Proof.
  revert i question_results total_confidence.
  induction questions as [|q questions IH]; intros i question_results total_confidence.
  - reflexivity.
  - cbn [validate_questions].
    destruct (list_getitem (validation_criteria level) _) as [criterion|e]; [|reflexivity].
    cbn [mbind result_bind].
    rewrite (apply_validation_criteria_data q criterion d1 d2).
    destruct (ValidationResult_getitem _ _) as [confidence|e]; [|reflexivity].
    cbn [mbind result_bind]. apply IH.
Qed.

(** The loop stops at its first question: the criterion is out of range
    or the result is subscripted. *)
Lemma validate_questions_cons_raises (level : DoubtLevel) d (i : Z) q (questions : list string)
    (question_results : list ValidationResult) (total_confidence : Q) :
  validate_questions level d i (q :: questions) question_results total_confidence
  = match list_getitem (validation_criteria level)
            (Z.min i (Z.of_nat (length (validation_criteria level)) - 1)) with
    | Return _ => Raise TypeError
    | Raise e => Raise e
    end.
Proof.
  cbn [validate_questions].
  by destruct (list_getitem (validation_criteria level) _).
Qed.

(** No call of [validate_doubt_level] returns. *)
Lemma validate_doubt_level_raises self n d now :
  ∃ e, validate_doubt_level self n d now = Raise e.
Proof.
  unfold validate_doubt_level.
  destruct ((n <? 1)%Z || (n >? 7)%Z); [by eexists|].
  destruct (list_getitem (doubt_levels self) (n - 1)) as [level|e]; [|by eexists].
  cbn [mbind result_bind].
  destruct (doubt_questions level) as [|q questions].
  - cbn. by eexists.
  - rewrite validate_questions_cons_raises.
    destruct (list_getitem (validation_criteria level) _); by eexists.
Qed.

Lemma validate_doubt_level_out_of_range self n d now :
  (n < 1 ∨ 7 < n)%Z →
  validate_doubt_level self n d now
  = Raise (ValueError "Doubt level must be between 1 and 7").
Proof.
  intros Hn. unfold validate_doubt_level.
  destruct ((n <? 1)%Z || (n >? 7)%Z) eqn:E; [done|].
  apply orb_false_elim in E as [E1 E2].
  rewrite Z.ltb_ge in E1. rewrite Z.gtb_ltb, Z.ltb_ge in E2. lia.
Qed.

Lemma validate_doubt_level_fresh_in_range n d now :
  (1 ≤ n ≤ 7)%Z →
  validate_doubt_level RecursiveDoubtValidator_init n d now = Raise TypeError.
Proof.
  intros Hn.
  assert (n = 1 ∨ n = 2 ∨ n = 3 ∨ n = 4 ∨ n = 5 ∨ n = 6 ∨ n = 7)%Z
    as [->|[->|[->|[->|[->|[->| ->]]]]]] by lia; reflexivity.
Qed.

(** The mean of numbers of the unit interval is in the unit interval. *)
Lemma foldl_Qplus_bounds (xs : list Q) (acc : Q) :
  Forall Spec.unit_interval xs →
  acc <= foldl Qplus acc xs
  ∧ foldl Qplus acc xs <= acc + inject_Z (Z.of_nat (length xs)).
Proof.
  intros HF. revert acc. induction HF as [|x xs [Hx0 Hx1] HF IH]; intros acc.
  - cbn [foldl length]. change (inject_Z (Z.of_nat 0)) with 0. split; lra.
  - cbn [foldl length]. destruct (IH (acc + x)) as [IH1 IH2].
    rewrite Nat2Z.inj_succ, <- Z.add_1_r, inject_Z_plus.
    change (inject_Z 1) with 1. split; lra.
Qed.

Lemma mean_unit (xs : list Q) :
  xs ≠ [] → Forall Spec.unit_interval xs → Spec.unit_interval (Spec.mean xs).
Proof.
  intros Hne HF. unfold Spec.mean.
  destruct (foldl_Qplus_bounds xs 0.0 HF) as [H0 H1].
  assert (Hlen : 0 < inject_Z (Z.of_nat (length xs))).
  { destruct xs as [|x xs]; [done|].
    change 0 with (inject_Z 0). rewrite <- Zlt_Qlt. simpl. lia. }
  split.
  - apply Qle_shift_div_l; [done|]. lra.
  - apply Qle_shift_div_r; [done|]. lra.
Qed.

(** A history with an entry gives a report, not the error. *)
Lemma report_on_nonempty_history self now :
  validation_history self ≠ [] →
  ∃ r, generate_maximum_truth_report self now = ReportDict r
       ∧ Report.total_validation_levels r = Z.of_nat (length (validation_history self))
       ∧ Report.validation_history r = validation_history self.
Proof.
  intros Hne. unfold generate_maximum_truth_report.
  destruct (validation_history self) as [|entry history] eqn:E; [done|].
  eexists. split; [reflexivity|]. by split.
Qed.

(** C1: on a fresh evaluator, evaluating level 1 raises [TypeError]
    at its first question, whatever the investigation data; the
    confidences that [_calculate_validation_confidence] gives the four
    questions of the level are 0.80 each, and their mean 0.80 is below
    the threshold 0.85 of the level. *)
Theorem level1_on_fresh_evaluator d now :
  validate_doubt_level RecursiveDoubtValidator_init 1 d now = Raise TypeError
  ∧ ∃ level,
      list_getitem (doubt_levels RecursiveDoubtValidator_init) (1 - 1) = Return level
      ∧ length (doubt_questions level) = 4%nat
      ∧ confidence_threshold level = 0.85
      ∧ (λ q, _calculate_validation_confidence q d) <$> doubt_questions level
        = [0.80; 0.80; 0.80; 0.80]
      ∧ Spec.mean ((λ q, _calculate_validation_confidence q d) <$> doubt_questions level)
        == 0.80
      ∧ ¬ confidence_threshold level
          <= Spec.mean ((λ q, _calculate_validation_confidence q d) <$> doubt_questions level).
Proof.
  split; [reflexivity|].
  eexists. split; [reflexivity|].
  repeat split; try reflexivity.
  vm_compute. intros H. by apply H.
Qed.

(** C2: the outcome of a question is resolved by the ordered phrase
    table, but its confidence is not: the question
    "Is the biological vagus nerve function accurately understood?"
    contains the first phrase of the table, whose entry says 0.95, and
    [_calculate_validation_confidence] returns the default 0.80. *)
Theorem confidence_is_exact_key_lookup d :
  let q := "Is the biological vagus nerve function accurately understood?" in
  contains "biological vagus nerve function" q = true
  ∧ _determine_validation_outcome q d = Spec.outcome_by_phrase q
  ∧ Spec.confidence_by_phrase q = 0.95
  ∧ _calculate_validation_confidence q d = 0.80
  ∧ ¬ _calculate_validation_confidence q d == Spec.confidence_by_phrase q.
Proof.
  repeat split; try reflexivity.
  vm_compute. discriminate.
Qed.

(** On an evaluator whose history is empty the function computes the
    error mapping [{'error': 'No validation history available'}] and
    no report. *)
Theorem report_on_empty_history self now :
  validation_history self = [] →
  generate_maximum_truth_report self now = ErrorDict "No validation history available"
  ∧ ∀ r, generate_maximum_truth_report self now ≠ ReportDict r.
Proof.
  intros H. unfold generate_maximum_truth_report. rewrite H. by split.
Qed.

(** The report request of a fresh evaluator does not fail: the call
    returns, and what it returns is the error mapping. *)
Lemma report_request_does_not_fail :
  generate_maximum_truth_report_call RecursiveDoubtValidator_init "2026-01-01T00:00:00"
  = Return (ErrorDict "No validation history available")
  ∧ ¬ ∃ e : exn,
        generate_maximum_truth_report_call RecursiveDoubtValidator_init
          "2026-01-01T00:00:00" = Raise e.
Proof.
  split; [reflexivity|]. intros [e He]. discriminate He.
Qed.

(** C4: on an evaluator whose history is empty the report request
    raises nothing: it returns, as an ordinary value, the mapping
    [{'error': 'No validation history available'}], which is not a
    report. *)
Theorem report_call_on_empty_history self now :
  validation_history self = [] →
  generate_maximum_truth_report_call self now
  = Return (ErrorDict "No validation history available")
  ∧ (∀ e : exn, generate_maximum_truth_report_call self now ≠ Raise e)
  ∧ (∀ r : Report.t, generate_maximum_truth_report_call self now ≠ Return (ReportDict r)).
Proof.
  intros H. unfold generate_maximum_truth_report_call.
  destruct (report_on_empty_history self now H) as [-> _].
  repeat split; intros; discriminate.
Qed.

(** C5: a level number outside [1,7] raises [ValueError] on every
    evaluator; a level number inside [1,7] raises [TypeError] on a fresh
    evaluator and no level result is returned. *)
Theorem validate_doubt_level_range n d now :
  (∀ self, (n < 1 ∨ 7 < n)%Z →
     validate_doubt_level self n d now
     = Raise (ValueError "Doubt level must be between 1 and 7"))
  ∧ ((1 ≤ n ≤ 7)%Z →
     validate_doubt_level RecursiveDoubtValidator_init n d now = Raise TypeError).
Proof.
  split.
  - intros self. apply validate_doubt_level_out_of_range.
  - apply validate_doubt_level_fresh_in_range.
Qed.

(** C9: two investigation-data arguments give every question the same
    result (outcome, confidence, limitations, recommendations) and give
    every evaluation the same outcome as a whole. *)
Theorem investigation_data_ignored d1 d2 :
  (∀ q criterion,
     _apply_validation_criteria q criterion d1 = _apply_validation_criteria q criterion d2)
  ∧ (∀ q, _determine_validation_outcome q d1 = _determine_validation_outcome q d2)
  ∧ (∀ q, _calculate_validation_confidence q d1 = _calculate_validation_confidence q d2)
  ∧ (∀ self n now,
       validate_doubt_level self n d1 now = validate_doubt_level self n d2 now).
Proof.
  split; [intros; apply apply_validation_criteria_data|].
  split; [reflexivity|]. split; [reflexivity|].
  intros self n now. unfold validate_doubt_level.
  destruct ((n <? 1)%Z || (n >? 7)%Z); [reflexivity|].
  destruct (list_getitem (doubt_levels self) (n - 1)) as [level|e]; [|reflexivity].
  cbn [mbind result_bind].
  by rewrite (validate_questions_data level d1 d2).
Qed.

End EvaluatorFacts.

(** ** The clamp invariant *)

(** C6: every per-factor score, the combined target and the smoothed
    tone that a scoring call returns or stores lie in [0,1]; so does the
    confidence of every question result, and so does the mean of the
    confidences of any non-empty list of questions. *)
Theorem clamp_invariant :
  (∀ (self : AdaptiveVagusNetwork) context out self',
     modulate_tone self context = Return (out, self') →
     (∀ k x, modulation_parameters out !! k = Some x → Spec.unit_interval x)
     ∧ Spec.unit_interval (optimal_tone out)
     ∧ Spec.unit_interval (result_tone out)
     ∧ Spec.unit_interval (current_tone (tone_state self')))
  ∧ (∀ (q criterion : string) (d : gmap string pyval),
       Spec.unit_interval (confidence_level (_apply_validation_criteria q criterion d)))
  ∧ (∀ (questions : list string) (d : gmap string pyval),
       questions ≠ [] →
       Spec.unit_interval
         (Spec.mean ((λ q, _calculate_validation_confidence q d) <$> questions))).
Proof.
  split; [apply modulate_tone_unit|]. split.
  - intros q criterion d. apply confidence_unit.
  - intros questions d Hne. apply mean_unit.
    + by destruct questions.
    + apply Forall_fmap, Forall_forall. intros q _. apply confidence_unit.
Qed.

(** ** The theorems at concrete inputs *)

(** Levels 0, 8 and 1 on a fresh evaluator. *)
Lemma validate_doubt_level_range_witness :
  validate_doubt_level RecursiveDoubtValidator_init 0 ∅ "2026-01-01T00:00:00"
  = Raise (ValueError "Doubt level must be between 1 and 7")
  ∧ validate_doubt_level RecursiveDoubtValidator_init 8 ∅ "2026-01-01T00:00:00"
    = Raise (ValueError "Doubt level must be between 1 and 7")
  ∧ validate_doubt_level RecursiveDoubtValidator_init 1 ∅ "2026-01-01T00:00:00" = Raise TypeError.
Proof.
  split; [|split].
  - apply (proj1 (validate_doubt_level_range 0 ∅ "2026-01-01T00:00:00") RecursiveDoubtValidator_init). lia.
  - apply (proj1 (validate_doubt_level_range 8 ∅ "2026-01-01T00:00:00") RecursiveDoubtValidator_init). lia.
  - apply (proj2 (validate_doubt_level_range 1 ∅ "2026-01-01T00:00:00")). lia.
Defined.

(** One scoring call of a fresh network on the high-stress context. *)
Lemma modulate_tone_only_updates_current_tone_witness :
  ∃ out self',
    modulate_tone AdaptiveVagusNetwork_init high_stress_assessment = Return (out, self')
    ∧ current_tone (tone_state self')
      = clip (0.6 + (optimal_tone out - 0.6) * 0.1) 0.0 1.0
    ∧ baseline_tone (tone_state self') = 0.6
    ∧ adaptation_rate (tone_state self') = 0.1
    ∧ context_sensitivity (tone_state self') = 0.8.
Proof.
  destruct (high_stress_round AdaptiveVagusNetwork_init) as (out & self' & H).
  exists out, self'. split; [exact H|].
  destruct (modulate_tone_only_updates_current_tone
              AdaptiveVagusNetwork_init high_stress_assessment out self' H)
    as (Hcur & _ & Hbase & Hrate & Hsens & _).
  split; [exact Hcur|]. split; [exact Hbase|]. split; [exact Hrate | exact Hsens].
Defined.

(** The high-stress inputs: their ['opportunities'] group is not what
    [beneficial_opportunities] holds. *)
Lemma opportunities_group_never_read_witness :
  beneficial_opportunities high_stress_assessment
  = dict_literal
      [("social_bonding", PFloat 0.7); ("learning_opportunities", PFloat 0.8);
       ("rest_recovery", PFloat 0.6); ("growth_potential", PFloat 0.5)]
  ∧ assess_context AdaptiveVagusNetwork_init (delete "opportunities" high_stress_inputs)
    = assess_context AdaptiveVagusNetwork_init high_stress_inputs.
Proof.
  split.
  - apply (proj1 (opportunities_group_never_read AdaptiveVagusNetwork_init high_stress_inputs)
             high_stress_assessment).
    vm_compute. reflexivity.
  - apply (proj2 (proj2 (opportunities_group_never_read AdaptiveVagusNetwork_init high_stress_inputs))).
Defined.

(** The invariant on the high-stress context and on the questions of
    level 1. *)
Lemma clamp_invariant_witness :
  (∃ out self',
     modulate_tone AdaptiveVagusNetwork_init high_stress_assessment = Return (out, self')
     ∧ Spec.unit_interval (optimal_tone out)
     ∧ Spec.unit_interval (current_tone (tone_state self')))
  ∧ Spec.unit_interval
      (Spec.mean ((λ q, _calculate_validation_confidence q ∅) <$>
         ["Is the biological vagus nerve function accurately understood?";
          "Are consciousness-vagus connections empirically validated?";
          "Can beneficial effects be quantitatively measured?";
          "Is silicon replication biologically feasible?"])).
Proof.
  split.
  - destruct (high_stress_round AdaptiveVagusNetwork_init) as (out & self' & H).
    exists out, self'. split; [exact H|].
    destruct (proj1 clamp_invariant AdaptiveVagusNetwork_init high_stress_assessment out self' H)
      as (_ & Ho & _ & Hc).
    split; [exact Ho | exact Hc].
  - apply (proj2 (proj2 clamp_invariant)). discriminate.
Defined.

(** * Further properties *)

(** ** Scoring: when it returns and what it depends on *)

Section ScoringReads.

Implicit Types (self : AdaptiveVagusNetwork) (context : ContextAssessment).
Implicit Types (e : Spec.ReadEntries).

Local Abbreviation scores_dict h i s r :=
  (dict_literal
     [("heart_rate_influence", h); ("inflammation_response", i);
      ("social_engagement_level", s); ("recovery_prioritization", r)]).








(** With the nine entries at hand, the call and its results in closed
    form. *)
Lemma modulate_tone_of_reads self context e :
  Spec.reads context e →
  ∃ out self',
    modulate_tone self context = Return (out, self')
    ∧ modulation_parameters out
      = scores_dict (Spec.heart_rate_of e) (Spec.inflammation_of e)
          (Spec.social_engagement_of e) (Spec.recovery_priority_of e)
    ∧ optimal_tone out
      = clip (0 + Spec.heart_rate_of e * 0.3 + Spec.inflammation_of e * 0.25
              + Spec.social_engagement_of e * 0.25
              + Spec.recovery_priority_of e * 0.2) 0.0 1.0
    ∧ self' = set_current_tone self
                (_adapt_tone self (current_tone (tone_state self)) (optimal_tone out)).
Proof.
  intros (Ha & Hc & Hr & Hs & Hm & Ht & Hi & He & Hn).
  pose proof (heart_rate_returns context _ _ _ Ha Hr Hs) as H1.
  pose proof (inflammation_returns context _ _ _ Hi Hc Hr) as H2.
  pose proof (social_engagement_returns context _ _ _ Hs Hm Ht) as H3.
  pose proof (recovery_priority_returns context _ _ _ He Hn Hr) as H4.
  destruct (modulate_tone_returns self context _ _ _ _ H1 H2 H3 H4)
    as (out & self' & H).
  exists out, self'. split; [exact H|].
  apply modulate_tone_inv in H.
  destruct H as (h & i & s & r & Hh' & Hi' & Hs' & Hr' & Hp & Ho & _ & Hself).
  rewrite H1 in Hh'. rewrite H2 in Hi'. rewrite H3 in Hs'. rewrite H4 in Hr'.
  inversion Hh'; inversion Hi'; inversion Hs'; inversion Hr'; subst h i s r.
  by repeat split.
Qed.









(** X2: two contexts that agree at the nine places read give the same
    result and the same new network, whether the call returns or
    raises: [hrv_coherence], [connection_opportunity],
    [recovery_opportunities], [threat_level], [social_bonding],
    [learning_opportunities] and [growth_potential] reach no
    computation. *)
Theorem modulate_tone_reads_nine_entries self (c1 c2 : ContextAssessment) :
  Spec.same_read_entries c1 c2 → modulate_tone self c1 = modulate_tone self c2.
Proof.
  intros (Ha & Hc & Hr & Hs & Hm & Ht & Hi & He & Hn).
  unfold modulate_tone, _calculate_heart_rate_modulation,
    _calculate_inflammation_modulation, _calculate_social_engagement,
    _calculate_recovery_priority, getitem.
  rewrite Ha, Hc, Hr, Hs, Hm, Ht, Hi, He, Hn. reflexivity.
Qed.

End ScoringReads.

(** ** Scoring: bounds, monotonicity and convergence *)

Section ScoringBounds.

Implicit Types (self : AdaptiveVagusNetwork) (context : ContextAssessment).
Implicit Types (e : Spec.ReadEntries).

Lemma clip_mono (x y : Q) : x <= y → clip x 0.0 1.0 <= clip y 0.0 1.0.
Proof.
  intros Hxy. unfold clip. apply Q.min_le_compat_r, Q.max_le_compat_r, Hxy.
Qed.

Lemma clip_id (x : Q) : 0 <= x → x <= 1 → clip x 0.0 1.0 == x.
Proof.
  intros H0 H1. unfold clip.
  destruct (Q.max_spec x 0.0) as [[Hlt Hmax]|[Hle Hmax]],
           (Q.min_spec (Qmax x 0.0) 1.0) as [[Hlt' Hmin]|[Hle' Hmin]];
    rewrite Hmin; try rewrite Hmax; lra.
Qed.

Lemma clip_eq (x y : Q) : x == y → clip x 0.0 1.0 == clip y 0.0 1.0.
Proof.
  intros Hxy. apply Qle_antisym; apply clip_mono; lra.
Qed.

Lemma clip_lower (a x : Q) : 0 <= a → a <= 1 → a <= x → a <= clip x 0.0 1.0.
Proof.
  intros H0 H1 Hx. rewrite <- (clip_id a H0 H1). by apply clip_mono.
Qed.

Lemma div3_mono (x y : Q) : x <= y → x / 3.0 <= y / 3.0.
Proof.
  intros Hxy. unfold Qdiv. apply Qmult_le_compat_r; [exact Hxy|].
  vm_compute. discriminate.
Qed.

Lemma high_stress_reads : Spec.reads high_stress_assessment high_stress_entries.
Proof. by repeat split. Qed.

Lemma least_favourable_reads :
  Spec.reads least_favourable_context least_favourable_entries.
Proof. by repeat split. Qed.

(** X3: the combined target is the plain weighted sum of the four
    scores with the weights 0.3, 0.25, 0.25 and 0.2: the scores are in
    [0,1] and the weights add up to 1, so the final [np.clip] of
    [_calculate_optimal_tone] changes nothing. *)
Theorem target_is_weighted_sum self context out self' :
  modulate_tone self context = Return (out, self') →
  ∃ h i s r : Q,
    modulation_parameters out !! "heart_rate_influence" = Some h
    ∧ modulation_parameters out !! "inflammation_response" = Some i
    ∧ modulation_parameters out !! "social_engagement_level" = Some s
    ∧ modulation_parameters out !! "recovery_prioritization" = Some r
    ∧ optimal_tone out == h * 0.3 + i * 0.25 + s * 0.25 + r * 0.2.
Proof.
  intros H. apply modulate_tone_inv in H.
  destruct H as (h & i & s & r & Hh & Hi & Hs & Hr & Hp & Ho & _).
  exists h, i, s, r. rewrite Hp, Ho.
  apply heart_rate_unit in Hh as [Hh0 Hh1].
  apply inflammation_unit in Hi as [Hi0 Hi1].
  apply social_engagement_unit in Hs as [Hs0 Hs1].
  apply recovery_priority_unit in Hr as [Hr0 Hr1].
  repeat split; try reflexivity.
  rewrite clip_id; lra.
Qed.

(** X4: when the nine entries read are in [0,1], the heart-rate score
    is at least 0.2, the inflammation score at least 0.1 and the
    combined target at least 0.085; the least favourable entries reach
    exactly 0.085, so a target of 0 cannot be produced from in-range
    entries. *)
Theorem target_lower_bound self context e out self' :
  Spec.reads context e → Spec.in_range e →
  modulate_tone self context = Return (out, self') →
  (∀ h, modulation_parameters out !! "heart_rate_influence" = Some h → 1 # 5 <= h)
  ∧ (∀ i, modulation_parameters out !! "inflammation_response" = Some i → 1 # 10 <= i)
  ∧ 17 # 200 <= optimal_tone out
  ∧ ∃ out0 self0,
      modulate_tone self least_favourable_context = Return (out0, self0)
      ∧ optimal_tone out0 == 17 # 200.
Proof.
  intros He (Ha & Hc & Hr & Hs & Hm & Ht & Hi & Hen & Hn) H.
  unfold Spec.unit_interval in *.
  destruct (modulate_tone_of_reads self context e He)
    as (out' & self'' & H' & Hp & Ho & _).
  rewrite H in H'. inversion H'; subst out' self''; clear H'.
  assert (Hheart : 1 # 5 <= Spec.heart_rate_of e)
    by (apply clip_lower; lra).
  assert (Hinfl : 1 # 10 <= Spec.inflammation_of e)
    by (apply clip_lower; lra).
  assert (Hsoc : 0 <= Spec.social_engagement_of e) by apply clip_unit.
  assert (Hrec : 0 <= Spec.recovery_priority_of e) by apply clip_unit.
  split; [|split; [|split]].
  - intros h Hh. rewrite Hp in Hh. by inversion Hh.
  - intros i Hi'. rewrite Hp in Hi'. by inversion Hi'.
  - rewrite Ho. apply clip_lower; lra.
  - destruct (modulate_tone_of_reads self _ _ least_favourable_reads)
      as (out0 & self0 & H0 & _ & Ho0 & _).
    exists out0, self0. split; [exact H0|]. by rewrite Ho0.
Qed.

(** X5: the target is monotone in the nine entries: entries that are no
    less favourable (no more acute or chronic stress, inflammation or
    energy; no less rest, safety, resonance, trust or recovery need)
    give each of the four scores and the target a value that is no
    lower. *)
Theorem target_monotone self (c1 c2 : ContextAssessment) (e1 e2 : Spec.ReadEntries)
    out1 self1 out2 self2 :
  Spec.reads c1 e1 → Spec.reads c2 e2 → Spec.no_less_favourable e1 e2 →
  modulate_tone self c1 = Return (out1, self1) →
  modulate_tone self c2 = Return (out2, self2) →
  Spec.heart_rate_of e1 <= Spec.heart_rate_of e2
  ∧ Spec.inflammation_of e1 <= Spec.inflammation_of e2
  ∧ Spec.social_engagement_of e1 <= Spec.social_engagement_of e2
  ∧ Spec.recovery_priority_of e1 <= Spec.recovery_priority_of e2
  ∧ modulation_parameters out1
    = dict_literal
        [("heart_rate_influence", Spec.heart_rate_of e1);
         ("inflammation_response", Spec.inflammation_of e1);
         ("social_engagement_level", Spec.social_engagement_of e1);
         ("recovery_prioritization", Spec.recovery_priority_of e1)]
  ∧ modulation_parameters out2
    = dict_literal
        [("heart_rate_influence", Spec.heart_rate_of e2);
         ("inflammation_response", Spec.inflammation_of e2);
         ("social_engagement_level", Spec.social_engagement_of e2);
         ("recovery_prioritization", Spec.recovery_priority_of e2)]
  ∧ optimal_tone out1 <= optimal_tone out2.
Proof.
  intros He1 He2 (Ha & Hc & Hr & Hs & Hm & Ht & Hi & Hen & Hn) H1 H2.
  destruct (modulate_tone_of_reads self c1 e1 He1) as (o1 & s1 & H1' & Hp1 & Ho1 & _).
  destruct (modulate_tone_of_reads self c2 e2 He2) as (o2 & s2 & H2' & Hp2 & Ho2 & _).
  rewrite H1 in H1'. rewrite H2 in H2'.
  inversion H1'; inversion H2'; subst o1 s1 o2 s2; clear H1' H2'.
  assert (Hheart : Spec.heart_rate_of e1 <= Spec.heart_rate_of e2)
    by (apply clip_mono; lra).
  assert (Hinfl : Spec.inflammation_of e1 <= Spec.inflammation_of e2)
    by (apply clip_mono; lra).
  assert (Hsoc : Spec.social_engagement_of e1 <= Spec.social_engagement_of e2)
    by (apply clip_mono, div3_mono; lra).
  assert (Hrec : Spec.recovery_priority_of e1 <= Spec.recovery_priority_of e2)
    by (apply clip_mono, div3_mono; lra).
  repeat split; try done.
  rewrite Ho1, Ho2. apply clip_mono. lra.
Qed.

End ScoringBounds.

(** ** Assessing a context: errors and ignored keys *)

Section AssessContext.

Implicit Types (self : AdaptiveVagusNetwork) (inputs : gmap string pyval).

(** A group that is present and is not a dictionary stops its helper at
    the first [.get]. *)
Lemma get_not_dict (v : pyval) (k : string) (dflt : pyval) :
  (∀ d, v ≠ PDict d) → get v k dflt = Raise AttributeError.
Proof. intros Hv. destruct v as [x|t|d]; [done..|]. by destruct (Hv d). Qed.

Lemma group_cases inputs (g : string) :
  (∃ d, dict_get inputs g (PDict ∅) = PDict d)
  ∨ (∃ v, inputs !! g = Some v ∧ dict_get inputs g (PDict ∅) = v ∧ ∀ d, v ≠ PDict d).
Proof.
  unfold dict_get. destruct (inputs !! g) as [[x|t|d]|]; simpl; eauto.
Qed.

(** X9: [assess_context] returns exactly when each of the groups
    ['physiological'], ['social'] and ['environmental'] is absent or a
    dictionary; otherwise it raises [AttributeError].  Keys missing
    from a group, or a missing group, are never an error. *)
Theorem assess_context_returns_iff self inputs :
  (Spec.groups_are_dicts inputs → ∃ context, assess_context self inputs = Return context)
  ∧ (¬ Spec.groups_are_dicts inputs → assess_context self inputs = Raise AttributeError).
Proof.
  destruct (group_cases inputs "physiological") as [[dp Ep]|(vp & Hp & Ep & Np)].
  2:{ split.
      - intros (H & _). destruct (H vp Hp) as [d ->]. by destruct (Np d).
      - intros _. unfold assess_context, _assess_physiological_context.
        rewrite Ep, !(get_not_dict vp) by done. reflexivity. }
  destruct (group_cases inputs "social") as [[ds Es]|(vs & Hs & Es & Ns)].
  2:{ split.
      - intros (_ & H & _). destruct (H vs Hs) as [d ->]. by destruct (Ns d).
      - intros _. unfold assess_context, _assess_social_context.
        rewrite Ep, Es, !(get_not_dict vs) by done. reflexivity. }
  destruct (group_cases inputs "environmental") as [[de Ee]|(ve & He & Ee & Ne)].
  2:{ split.
      - intros (_ & _ & H). destruct (H ve He) as [d ->]. by destruct (Ne d).
      - intros _. unfold assess_context, _assess_environmental_stressors.
        rewrite Ep, Es, Ee, !(get_not_dict ve) by done. reflexivity. }
  split.
  - intros _. rewrite (assess_context_on_groups self inputs dp ds de Ep Es Ee). eauto.
  - intros Hn. destruct Hn. unfold dict_get in Ep, Es, Ee.
    repeat split; intros v Hv;
      [rewrite Hv in Ep | rewrite Hv in Es | rewrite Hv in Ee]; simpl in *; eauto.
Qed.

(** X10: a top-level key other than ['physiological'], ['social'],
    ['environmental'], ['bonding'], ['learning'], ['rest'] and
    ['growth'] is never looked at: setting it to any value, or deleting
    it, leaves the result of [assess_context] as it was. *)
Theorem assess_context_ignores_other_keys self inputs (k : string) (v : pyval) :
  k ∉ Spec.input_keys →
  assess_context self (<[k := v]> inputs) = assess_context self inputs
  ∧ assess_context self (delete k inputs) = assess_context self inputs.
Proof.
  intros Hk. unfold Spec.input_keys in Hk.
  repeat (apply not_elem_of_cons in Hk as [? Hk]).
  split; unfold assess_context, _assess_beneficial_opportunities, get, dict_get.
  - by rewrite !lookup_insert_ne.
  - by rewrite !lookup_delete_ne.
Qed.

End AssessContext.

(** ** Evaluating a level: how it ends *)

Section EvaluatorErrors.

Implicit Types (self validator : RecursiveDoubtValidator) (d : gmap string pyval).
Implicit Types (n : Z).

Lemma in_range_test n :
  (1 ≤ n ≤ 7)%Z → ((n <? 1)%Z || (n >? 7)%Z) = false.
Proof.
  intros Hn. apply orb_false_intro.
  - apply Z.ltb_ge. lia.
  - rewrite Z.gtb_ltb. apply Z.ltb_ge. lia.
Qed.

Lemma list_getitem_short {A : Type} (l : list A) (i : Z) :
  (Z.of_nat (length l) ≤ i)%Z → list_getitem l i = Raise IndexError.
Proof.
  intros Hi. unfold list_getitem.
  destruct (i <? 0)%Z eqn:E; [apply Z.ltb_lt in E; lia|].
  destruct (Z.of_nat (length l) <=? i)%Z eqn:E'; [by rewrite orb_true_r|].
  apply Z.leb_gt in E'. lia.
Qed.

Lemma list_getitem_first {A : Type} (x : A) (l : list A) :
  list_getitem (x :: l) (Z.min 0 (Z.of_nat (length (x :: l)) - 1)) = Return x.
Proof.
  rewrite Z.min_l by (cbn [length]; lia). unfold list_getitem.
  change (0 <? 0)%Z with false. cbn [orb].
  destruct (Z.of_nat (length (x :: l)) <=? 0)%Z eqn:E; [|reflexivity].
  apply Z.leb_le in E. cbn [length] in E. lia.
Qed.

(** X11: no call of [validate_doubt_level] returns, so no level result
    is ever stored.  For a level number in [1,7]: a validator with
    fewer levels raises [IndexError]; a level without questions raises
    [ZeroDivisionError]; a level with questions and no criterion raises
    [IndexError]; every other level raises [TypeError] at its first
    question. *)
Theorem validate_doubt_level_never_returns self n d (now : string) :
  (∃ e, validate_doubt_level self n d now = Raise e)
  ∧ ((1 ≤ n ≤ 7)%Z → (Z.of_nat (length (doubt_levels self)) < n)%Z →
     validate_doubt_level self n d now = Raise IndexError)
  ∧ (∀ level, (1 ≤ n ≤ 7)%Z →
       list_getitem (doubt_levels self) (n - 1) = Return level →
       validate_doubt_level self n d now
       = match doubt_questions level, validation_criteria level with
         | [], _ => Raise ZeroDivisionError
         | _ :: _, [] => Raise IndexError
         | _ :: _, _ :: _ => Raise TypeError
         end).
Proof.
  split; [apply validate_doubt_level_raises|]. split.
  - intros Hn Hlen. unfold validate_doubt_level.
    rewrite (in_range_test n Hn), list_getitem_short by lia. reflexivity.
  - intros level Hn Hlevel. unfold validate_doubt_level.
    rewrite (in_range_test n Hn), Hlevel. cbn [mbind result_bind].
    destruct (doubt_questions level) as [|q questions]; [reflexivity|].
    rewrite validate_questions_cons_raises.
    destruct (validation_criteria level) as [|c criteria]; [reflexivity|].
    by rewrite list_getitem_first.
Qed.

(** X13: the level table of a fresh validator fits the way it is
    indexed: for every level number [n] of [1,7], entry [n - 1] is the
    level numbered [n]; it has four questions and four criteria, and
    its threshold is in [0,1]. *)
Theorem level_table_consistent n :
  (1 ≤ n ≤ 7)%Z →
  ∃ level,
    list_getitem (doubt_levels RecursiveDoubtValidator_init) (n - 1) = Return level
    ∧ level_number level = n
    ∧ length (doubt_questions level) = 4%nat
    ∧ length (validation_criteria level) = 4%nat
    ∧ Spec.unit_interval (confidence_threshold level).
Proof.
  intros Hn.
  assert (n = 1 ∨ n = 2 ∨ n = 3 ∨ n = 4 ∨ n = 5 ∨ n = 6 ∨ n = 7)%Z
    as [->|[->|[->|[->|[->|[->| ->]]]]]] by lia;
    (eexists; split; [reflexivity|]; repeat split; try reflexivity;
     vm_compute; discriminate).
Qed.

End EvaluatorErrors.

(** ** The report *)

Section ReportFacts.

Implicit Types (self : RecursiveDoubtValidator) (now : string) (r : Report.t).

Lemma filter_length_all {A : Type} (P : A → Prop) `{∀ x, Decision (P x)} (l : list A) :
  length (filter P l) = length l ↔ Forall P l.
Proof.
  induction l as [|x l IH].
  - split; [constructor | reflexivity].
  - rewrite filter_cons. destruct (decide (P x)) as [Hx|Hx].
    + cbn [length]. split.
      * intros Hl. constructor; [exact Hx|]. apply IH. lia.
      * intros HF. inversion HF; subst. f_equal. by apply IH.
    + split.
      * intros Hl. pose proof (length_filter P l). cbn [length] in Hl. lia.
      * intros HF. inversion HF; subst. contradiction.
Qed.

(** A report is what a non-empty history gives. *)
Lemma report_inv self now r :
  generate_maximum_truth_report self now = ReportDict r →
  validation_history self ≠ []
  ∧ r = {| Report.validation_framework := "7-Level Maximum Recursive Doubt";
           Report.total_validation_levels := Z.of_nat (length (validation_history self));
           Report.levels_validated :=
             Z.of_nat (length (filter
               (λ level, LevelResults.validation_status level = "VALIDATED")
               (validation_history self)));
           Report.levels_needing_refinement :=
             (Z.of_nat (length (validation_history self))
              - Z.of_nat (length (filter
                  (λ level, LevelResults.validation_status level = "VALIDATED")
                  (validation_history self))))%Z;
           Report.overall_maximum_truth_confidence :=
             round (foldl Qplus 0 (LevelResults.overall_confidence <$> validation_history self)
                    / inject_Z (Z.of_nat (length (validation_history self)))) 3;
           Report.maximum_truth_achievement :=
             if Qle_bool 0.80
                  (foldl Qplus 0 (LevelResults.overall_confidence <$> validation_history self)
                   / inject_Z (Z.of_nat (length (validation_history self))))
             then "ACHIEVED" else "IN_PROGRESS";
           Report.maximum_truth_principles := _extract_maximum_truth_principles;
           Report.validation_timestamp := now;
           Report.validation_history := validation_history self;
           Report.truth_optimization_status := Report.truth_optimization_status r |}.
Proof.
  unfold generate_maximum_truth_report.
  destruct (validation_history self) as [|entry history] eqn:E; [done|].
  intros H. inversion H; subst; clear H. by split.
Qed.

(** X14: the counts of a report.  A report exists only for a non-empty
    history, which it carries unchanged; the validated levels are at
    most the recorded ones, validated and to-be-refined levels add up
    to the total, and no level needs refinement exactly when every
    recorded status is ['VALIDATED']; there are five principles. *)
Theorem report_counts self now r :
  generate_maximum_truth_report self now = ReportDict r →
  validation_history self ≠ []
  ∧ Report.validation_history r = validation_history self
  ∧ Report.total_validation_levels r = Z.of_nat (length (validation_history self))
  ∧ (0 ≤ Report.levels_validated r ≤ Report.total_validation_levels r)%Z
  ∧ (Report.levels_validated r + Report.levels_needing_refinement r
     = Report.total_validation_levels r)%Z
  ∧ (Report.levels_needing_refinement r = 0%Z
     ↔ Forall (λ entry, LevelResults.validation_status entry = "VALIDATED")
              (validation_history self))
  ∧ length (Report.maximum_truth_principles r) = 5%nat.
Proof.
  intros H. apply report_inv in H as [Hne ->]. cbn.
  pose proof (length_filter
    (λ level, LevelResults.validation_status level = "VALIDATED")
    (validation_history self)) as Hle.
  repeat split; try done; try lia.
  - intros Hz. apply (proj1 (filter_length_all _ _)). lia.
  - intros HF. apply (proj2 (filter_length_all _ _)) in HF. lia.
Qed.

End ReportFacts.

(** ** Outcomes, limitations and recommendations *)

Section QuestionTables.

Implicit Types (q needle haystack : string) (d : gmap string pyval).

Lemma prefix_spec needle haystack :
  String.prefix needle haystack = true ↔ ∃ post, haystack = needle +:+ post.
Proof.
  revert needle. induction haystack as [|b haystack IH]; intros [|a needle]; cbn.
  - split; [by exists EmptyString | done].
  - split; [done | by intros [post ?]].
  - split; [by eexists | done].
  - destruct (Ascii.ascii_dec a b) as [->|Hab].
    + rewrite IH. split; intros [post Hp]; exists post.
      * cbn. by rewrite Hp.
      * cbn in Hp. by inversion Hp.
    + split; [done | intros [post Hp]; cbn in Hp; by inversion Hp].
Qed.

(** [contains] is containment as a contiguous substring. *)
Lemma contains_spec needle haystack :
  contains needle haystack = true
  ↔ ∃ pre post, haystack = pre +:+ needle +:+ post.
Proof.
  induction haystack as [|b haystack IH].
  - cbn [contains]. destruct (String.prefix needle "") eqn:E.
    + apply prefix_spec in E as [post E]. split; [|done].
      intros _. by exists EmptyString, post.
    + split; [done|]. intros (pre & post & Hq).
      destruct pre; [|done]. cbn in Hq.
      assert (String.prefix needle "" = true) by (apply prefix_spec; eauto).
      congruence.
  - cbn [contains]. destruct (String.prefix needle (String b haystack)) eqn:E.
    + apply prefix_spec in E as [post E]. split; [|done].
      intros _. by exists EmptyString, post.
    + rewrite IH. split.
      * intros (pre & post & ->). by exists (String b pre), post.
      * intros ([|a pre] & post & Hq); cbn in Hq.
        -- assert (String.prefix needle (String b haystack) = true)
             by (apply prefix_spec; eauto).
           congruence.
        -- inversion Hq; subst. by exists pre, post.
Qed.

Lemma first_match_spec {V : Type} (table : list (string * V)) q (dflt : V) :
  (Forall (λ kv, contains kv.1 q = false) table ∧ Spec.first_match table q dflt = dflt)
  ∨ ∃ before phrase v after,
      table = before ++ (phrase, v) :: after
      ∧ Forall (λ kv, contains kv.1 q = false) before
      ∧ contains phrase q = true
      ∧ Spec.first_match table q dflt = v.
Proof.
  induction table as [|[phrase v] table IH]; cbn [Spec.first_match].
  - left. by split.
  - destruct (contains phrase q) eqn:E.
    + right. exists [], phrase, v, table. by repeat split.
    + destruct IH as [[HF Hd]|(before & phrase' & v' & after & -> & HF & Hc & Hv)].
      * left. split; [by constructor|done].
      * right. exists ((phrase, v) :: before), phrase', v', after.
        repeat split; try done. by constructor.
Qed.

(** X16: the outcome of a question is the outcome attached to the
    first phrase, in the order of the branches, that occurs in the
    question as a contiguous substring, and the default outcome when no
    phrase occurs. *)
Theorem outcome_by_first_substring q d :
  (∀ needle haystack,
     contains needle haystack = true ↔ ∃ pre post, haystack = pre +:+ needle +:+ post)
  ∧ ((Forall (λ kv : string * string, contains kv.1 q = false) Spec.outcome_table
      ∧ _determine_validation_outcome q d = Spec.default_outcome)
     ∨ ∃ before phrase outcome after,
         Spec.outcome_table = before ++ (phrase, outcome) :: after
         ∧ Forall (λ kv : string * string, contains kv.1 q = false) before
         ∧ contains phrase q = true
         ∧ _determine_validation_outcome q d = outcome).
Proof.
  split; [apply contains_spec|].
  rewrite outcome_is_first_match. apply first_match_spec.
Qed.

(** X17: the second branch on "planetary consciousness" is dead: no
    question gets the outcome
    "VERIFIED - Participatory governance models created". *)
Theorem governance_outcome_unreachable q d :
  _determine_validation_outcome q d
  ≠ "VERIFIED - Participatory governance models created".
Proof.
  unfold _determine_validation_outcome.
  repeat (cbv iota;
          match goal with
          | |- context [if contains ?p q then _ else _] =>
              destruct (contains p q) eqn:?; [cbv iota; discriminate|]
          end).
  cbv iota. discriminate.
Qed.

Lemma limitation_keys_eq :
  Spec.limitation_keys
  = [ "subjective consciousness"; "self-awareness"; "consciousness effects";
      "entropy constraints"; "planetary consciousness" ].
Proof. reflexivity. Qed.

(** X18: limitations and recommendations are found by exact key.  A
    question that is not one of the five keys has no limitations and
    the two standard recommendations; a key has two limitations; every
    question has exactly two recommendations.  None of the questions of
    the seven levels is a key. *)
Theorem limitations_by_exact_key q :
  length (_generate_recommendations q) = 2%nat
  ∧ (q ∉ Spec.limitation_keys →
     _identify_limitations q = []
     ∧ _generate_recommendations q
       = ["Continue systematic validation"; "Refine investigation methodologies"])
  ∧ (q ∈ Spec.limitation_keys → length (_identify_limitations q) = 2%nat)
  ∧ Forall (λ level : DoubtLevel,
              Forall (λ q', q' ∉ Spec.limitation_keys) (doubt_questions level))
           _initialize_doubt_levels.
Proof.
  split; [|split; [|split]].
  - unfold _generate_recommendations, dict_get, recommendations_map.
    match goal with
    | |- context [dict_literal ?l !! q] =>
        destruct (dict_literal l !! q) as [v|] eqn:E; [|reflexivity];
        apply dict_literal_lookup_Some in E
    end.
    repeat (apply elem_of_cons in E as [E|E]; [by inversion E|]).
    by apply elem_of_nil in E.
  - intros Hq.
    unfold _identify_limitations, _generate_recommendations, dict_get,
      limitations_map, recommendations_map.
    by rewrite !dict_literal_lookup_None.
  - intros Hq. unfold Spec.limitation_keys in Hq.
    repeat (apply elem_of_cons in Hq as [->|Hq]; [reflexivity|]).
    by apply elem_of_nil in Hq.
  - repeat constructor; unfold Spec.limitation_keys;
      intros Hq; repeat (apply elem_of_cons in Hq as [Hq|Hq]; [discriminate|]);
      by apply elem_of_nil in Hq.
Qed.

End QuestionTables.

(** ** The further properties at concrete inputs *)

Lemma least_favourable_round self :
  ∃ out self', modulate_tone self least_favourable_context = Return (out, self').
Proof.
  destruct (modulate_tone_of_reads self least_favourable_context least_favourable_entries)
    as (out & self' & H & _); [by repeat split | eauto].
Qed.


Lemma modulate_tone_reads_nine_entries_witness :
  modulate_tone AdaptiveVagusNetwork_init high_stress_assessment
  = modulate_tone AdaptiveVagusNetwork_init high_stress_assessment_variant.
Proof.
  apply (modulate_tone_reads_nine_entries AdaptiveVagusNetwork_init
           high_stress_assessment high_stress_assessment_variant).
  repeat split; vm_compute; reflexivity.
Defined.

Lemma target_is_weighted_sum_witness :
  ∃ out self' (h i s r : Q),
    modulate_tone AdaptiveVagusNetwork_init high_stress_assessment = Return (out, self')
    ∧ modulation_parameters out !! "heart_rate_influence" = Some h
    ∧ modulation_parameters out !! "inflammation_response" = Some i
    ∧ modulation_parameters out !! "social_engagement_level" = Some s
    ∧ modulation_parameters out !! "recovery_prioritization" = Some r
    ∧ optimal_tone out == h * 0.3 + i * 0.25 + s * 0.25 + r * 0.2.
Proof.
  destruct (high_stress_round AdaptiveVagusNetwork_init) as (out & self' & H).
  destruct (target_is_weighted_sum AdaptiveVagusNetwork_init high_stress_assessment
              out self' H) as (h & i & s & r & Hsum).
  exists out, self', h, i, s, r. split; [exact H | exact Hsum].
Defined.

Lemma target_lower_bound_witness :
  ∃ out self',
    modulate_tone AdaptiveVagusNetwork_init high_stress_assessment = Return (out, self')
    ∧ 17 # 200 <= optimal_tone out.
Proof.
  destruct (high_stress_round AdaptiveVagusNetwork_init) as (out & self' & H).
  exists out, self'. split; [exact H|].
  apply (target_lower_bound AdaptiveVagusNetwork_init high_stress_assessment
           high_stress_entries out self').
  - repeat split; reflexivity.
  - repeat split; vm_compute; discriminate.
  - exact H.
Defined.

Lemma target_monotone_witness :
  ∃ out1 self1 out2 self2,
    modulate_tone AdaptiveVagusNetwork_init least_favourable_context = Return (out1, self1)
    ∧ modulate_tone AdaptiveVagusNetwork_init high_stress_assessment = Return (out2, self2)
    ∧ optimal_tone out1 <= optimal_tone out2.
Proof.
  destruct (least_favourable_round AdaptiveVagusNetwork_init) as (out1 & self1 & H1).
  destruct (high_stress_round AdaptiveVagusNetwork_init) as (out2 & self2 & H2).
  exists out1, self1, out2, self2. split; [exact H1|]. split; [exact H2|].
  apply (target_monotone AdaptiveVagusNetwork_init
           least_favourable_context high_stress_assessment
           least_favourable_entries high_stress_entries out1 self1 out2 self2).
  - repeat split; reflexivity.
  - repeat split; reflexivity.
  - repeat split; vm_compute; discriminate.
  - exact H1.
  - exact H2.
Defined.

Lemma assess_context_returns_iff_witness :
  (∃ context, assess_context AdaptiveVagusNetwork_init high_stress_inputs = Return context)
  ∧ assess_context AdaptiveVagusNetwork_init inputs_with_number_group
    = Raise AttributeError.
Proof.
  split.
  - apply (proj1 (assess_context_returns_iff AdaptiveVagusNetwork_init high_stress_inputs)).
    repeat split; intros v Hv; vm_compute in Hv; inversion Hv; by eexists.
  - apply (proj2 (assess_context_returns_iff AdaptiveVagusNetwork_init
                    inputs_with_number_group)).
    intros (_ & Hs & _). destruct (Hs (PFloat 0.5)) as [d Hd]; [reflexivity|].
    discriminate Hd.
Defined.

Lemma assess_context_ignores_other_keys_witness :
  assess_context AdaptiveVagusNetwork_init
    (<["recovery_env" := PFloat 0.2]> high_stress_inputs)
  = assess_context AdaptiveVagusNetwork_init high_stress_inputs.
Proof.
  apply (proj1 (assess_context_ignores_other_keys AdaptiveVagusNetwork_init
                  high_stress_inputs "recovery_env" (PFloat 0.2)
                  ltac:(by vm_compute; intros H; repeat
                          (apply elem_of_cons in H as [H|H]; [discriminate|]);
                          apply elem_of_nil in H))).
Defined.

Lemma validate_doubt_level_never_returns_witness :
  validate_doubt_level validator_without_criteria 1 ∅ "2026-01-01T00:00:00"
  = Raise IndexError
  ∧ validate_doubt_level validator_without_criteria 2 ∅ "2026-01-01T00:00:00"
    = Raise IndexError.
Proof.
  split.
  - apply (proj2 (proj2 (validate_doubt_level_never_returns
             validator_without_criteria 1 ∅ "2026-01-01T00:00:00"))
             {| level_number := 1;
                focus_area := "Scientific Foundation";
                doubt_questions := ["Is silicon replication biologically feasible?"];
                validation_criteria := [];
                confidence_threshold := 0.85 |}); [lia | reflexivity].
  - apply (proj1 (proj2 (validate_doubt_level_never_returns
             validator_without_criteria 2 ∅ "2026-01-01T00:00:00"))); [lia|].
    vm_compute. reflexivity.
Defined.

Lemma level_table_consistent_witness :
  ∃ level,
    list_getitem (doubt_levels RecursiveDoubtValidator_init) (3 - 1) = Return level
    ∧ level_number level = 3%Z
    ∧ length (doubt_questions level) = 4%nat
    ∧ length (validation_criteria level) = 4%nat
    ∧ Spec.unit_interval (confidence_threshold level).
Proof. apply (level_table_consistent 3). lia. Defined.

Lemma report_counts_witness :
  ∃ r,
    generate_maximum_truth_report validator_with_history "2026-01-01T00:00:00"
    = ReportDict r
    ∧ Report.total_validation_levels r = 1%Z
    ∧ (Report.levels_validated r + Report.levels_needing_refinement r
       = Report.total_validation_levels r)%Z.
Proof.
  destruct (generate_maximum_truth_report validator_with_history "2026-01-01T00:00:00")
    as [msg|r] eqn:H; [vm_compute in H; discriminate|].
  exists r. split; [reflexivity|].
  destruct (report_counts validator_with_history "2026-01-01T00:00:00" r H)
    as (_ & _ & Htotal & _ & Hsum & _).
  split; [exact Htotal | exact Hsum].
Defined.

Lemma limitations_by_exact_key_witness :
  _identify_limitations "Can systems scale to planetary consciousness?" = []
  ∧ length (_identify_limitations "planetary consciousness") = 2%nat.
Proof.
  split.
  - apply (proj1 (proj2 (limitations_by_exact_key
                           "Can systems scale to planetary consciousness?"))).
    vm_compute. intros H.
    repeat (apply elem_of_cons in H as [H|H]; [discriminate|]).
    by apply elem_of_nil in H.
  - apply (proj1 (proj2 (proj2 (limitations_by_exact_key "planetary consciousness")))).
    unfold Spec.limitation_keys. repeat constructor.
Defined.


(** ** Repeated scoring, in binary64 and in exact arithmetic *)

Section RepeatedScoring.

Import PrimFloat.
#[local] Set Warnings "-inexact-float".









End RepeatedScoring.

(** The report request at a concrete validator. *)
Lemma report_call_on_empty_history_witness :
  generate_maximum_truth_report_call RecursiveDoubtValidator_init "2026-01-01T00:00:00"
  = Return (ErrorDict "No validation history available")
  ∧ (∀ e : exn,
       generate_maximum_truth_report_call RecursiveDoubtValidator_init
         "2026-01-01T00:00:00" ≠ Raise e)
  ∧ (∀ r : Report.t,
       generate_maximum_truth_report_call RecursiveDoubtValidator_init
         "2026-01-01T00:00:00" ≠ Return (ReportDict r)).
Proof.
  apply (report_call_on_empty_history RecursiveDoubtValidator_init "2026-01-01T00:00:00").
  reflexivity.
Defined.
